(** * NotificationService: the connection registry and its broadcast filter

    A shallow embedding of [NotificationService/app/main.py]: the
    [ConnectionManager] (connect, disconnect, broadcast), the message that
    [post_notification] prepares, the WebSocket endpoint from registration to
    cleanup, the request validators and the CORS origin list.

    Python values that flow through a message ([Dict[str, Any]]) are given by
    [pyval]. A [WebSocket] is a hashable object compared by identity, so it is
    modelled by a name. The [asyncio.Lock] makes the three methods mutually
    exclusive and no method awaits between two of its own registry updates, so
    every method is modelled as one atomic step on the registry. *)

From Stdlib Require Import ZArith Ascii String SpecFloat.
From stdpp Require Import base option list gmap sets strings.

#[local] Set Warnings "-register-all".
#[local] Open Scope string_scope.
#[local] Open Scope list_scope.

(** ** Python values *)

Inductive pyval : Type :=
  | PNone
  | PBool (b : bool)
  | PInt (z : Z)
  | PFloat (f : spec_float)
  | PStr (s : string)
  | PDatetime (t : Z)
  | PList (l : list pyval)
  | PDict (d : gmap string pyval).

(** [bool(v)]: the truth value Python gives [v] in [if v], [not v], [v or w]. *)
Definition truthy (v : pyval) : bool :=
  match v with
  | PNone => false
  | PBool b => b
  | PInt z => negb (Z.eqb z 0)
  | PFloat f => match f with S754_zero _ => false | _ => true end
  | PStr s => negb (String.eqb s "")
  | PDatetime _ => true
  | PList l => match l with [] => false | _ => true end
  | PDict d => negb (bool_decide (d = ∅))
  end.

(** [d.get(key)] on a dict of Python values: [None] when the key is missing. *)
Definition py_get (d : gmap string pyval) (key : string) : pyval :=
  default PNone (d !! key).

(** [a or b]. *)
Definition py_or (a b : pyval) : pyval := if truthy a then a else b.

(** An [Optional[str]] is kept as [option string]; [None] is Python's [None]. *)
Definition py_of_opt (o : option string) : pyval :=
  match o with Some s => PStr s | None => PNone end.

(** [bool(o)] for an [Optional[str]]: [None] and the empty string are false. *)
Definition truthy_opt (o : option string) : bool := truthy (py_of_opt o).

(** [v == o] where [o] is an [Optional[str]]: a string equals only the same
    string, [None] equals only [None]. *)
Definition py_eq_opt (v : pyval) (o : option string) : bool :=
  match v, o with
  | PStr s, Some s' => String.eqb s s'
  | PNone, None => true
  | _, _ => false
  end.

(** [filters.get(key)] on a subscription dict ([Dict[str, Optional[str]]]). *)
Definition filters_get (filters : gmap string (option string)) (key : string)
  : option string :=
  default None (filters !! key).

(** ** Exceptions, results and the effect monad *)

Inductive exn : Type :=
  | AttributeError
  | RuntimeError
  | WebSocketDisconnect
  | OtherException (name : string).

Inductive Result (A : Type) : Type :=
  | Returns (a : A)
  | Raises (e : exn).
Arguments Returns {A} a.
Arguments Raises {A} e.

(** A WebSocket object: hashable, compared by identity. *)
Abbreviation WebSocket := positive (only parsing).

(** The state of [ConnectionManager] ([__init__], lines 114-120); the lock is
    what makes each method below one step. *)
Record ConnectionManager : Type := {
  active_connections : gset WebSocket;
  subscriptions : gmap WebSocket (gmap string (option string))
}.

Definition ConnectionManager_init : ConnectionManager :=
  {| active_connections := ∅; subscriptions := ∅ |}.

(** The world a handler runs in: the module-level [manager] and the text
    frames handed to [send_text] so far, oldest first, one entry per call
    (whether or not the call then raised). *)
Record World : Type := {
  manager : ConnectionManager;
  wire : list (WebSocket * string)
}.

Definition M (A : Type) : Type := World → Result A * World.

Definition ret {A} (a : A) : M A := λ w, (Returns a, w).

Definition bind {A B} (m : M A) (k : A → M B) : M B :=
  λ w, match m w with
       | (Returns a, w') => k a w'
       | (Raises e, w') => (Raises e, w')
       end.

Definition raise {A} (e : exn) : M A := λ w, (Raises e, w).

Definition lift {A} (r : Result A) : M A := λ w, (r, w).

(** [try: body / except Exception: handler]. *)
Definition try_except {A} (body : M A) (handler : exn → M A) : M A :=
  λ w, match body w with
       | (Returns a, w') => (Returns a, w')
       | (Raises e, w') => handler e w'
       end.

#[export] Instance M_ret : MRet M := @ret.
#[export] Instance M_bind : MBind M := λ A B k m, bind m k.

Definition get_manager : M ConnectionManager := λ w, (Returns (manager w), w).

Definition update_manager (f : ConnectionManager → ConnectionManager) : M unit :=
  λ w, (Returns tt, {| manager := f (manager w); wire := wire w |}).

(** The transport: for each stream, the exception (if any) that a
    [send_text] on it raises. *)
Abbreviation Transport := (positive → option exn) (only parsing).

(** [await ws.send_text(text)]. *)
Definition send_text (net : Transport) (ws : WebSocket) (text : string) : M unit :=
  λ w, let w' := {| manager := manager w; wire := wire w ++ [(ws, text)] |} in
       match net ws with
       | Some e => (Raises e, w')
       | None => (Returns tt, w')
       end.

(** [await websocket.accept()]: the handshake either completes or raises. *)
Definition accept (outcome : option exn) (websocket : WebSocket) : M unit :=
  match outcome with
  | Some e => raise e
  | None => ret tt
  end.

(** ** ConnectionManager *)

(** [self.active_connections.add(websocket)]. *)
Definition add_connection (websocket : WebSocket) (self : ConnectionManager)
  : ConnectionManager :=
  {| active_connections := {[websocket]} ∪ active_connections self;
     subscriptions := subscriptions self |}.

(** [self.subscriptions[websocket] = filters]. *)
Definition set_subscription (websocket : WebSocket)
    (filters : gmap string (option string)) (self : ConnectionManager)
  : ConnectionManager :=
  {| active_connections := active_connections self;
     subscriptions := <[websocket := filters]> (subscriptions self) |}.

(** [self.active_connections.discard(websocket)]. *)
Definition discard_connection (websocket : WebSocket) (self : ConnectionManager)
  : ConnectionManager :=
  {| active_connections := active_connections self ∖ {[websocket]};
     subscriptions := subscriptions self |}.

(** [self.subscriptions.pop(websocket, None)]. *)
Definition pop_subscription (websocket : WebSocket) (self : ConnectionManager)
  : ConnectionManager :=
  {| active_connections := active_connections self;
     subscriptions := delete websocket (subscriptions self) |}.

(** The dict literal [{"userId": user_id, "topic": topic}]. *)
Definition subscription_dict (user_id topic : option string)
  : gmap string (option string) :=
  <["userId" := user_id]> (<["topic" := topic]> ∅).

(** [ConnectionManager.connect] (lines 122-126). *)
Definition connect (accept_outcome : option exn) (websocket : WebSocket)
    (user_id topic : option string) : M unit :=
  accept accept_outcome websocket;;
  update_manager (add_connection websocket);;
  update_manager (set_subscription websocket (subscription_dict user_id topic)).

(** [ConnectionManager.disconnect] (lines 128-131). *)
Definition disconnect (websocket : WebSocket) : M unit :=
  update_manager (discard_connection websocket);;
  update_manager (pop_subscription websocket).

(** *** The broadcast filter (lines 148-159) *)

(** Lines 149-151: [matches_user]. *)
Definition matches_user (message : gmap string pyval)
    (user_filter : option string) : bool :=
  if truthy_opt user_filter
  then py_eq_opt (py_get message "userId") user_filter
  else true.

(** [obj.get(key)] on an arbitrary value: only a dict has the method. *)
Definition method_get (obj : pyval) (key : string) : Result pyval :=
  match obj with
  | PDict d => Returns (py_get d key)
  | _ => Raises AttributeError
  end.

(** Lines 154-156: [msg_topic], from the top-level key or from [data]. *)
Definition resolve_msg_topic (message : gmap string pyval) : Result pyval :=
  let msg_topic := py_get message "topic" in
  if negb (truthy msg_topic)
  then method_get (py_or (py_get message "data") (PDict ∅)) "topic"
  else Returns msg_topic.

(** Lines 157-159: [matches_topic]. *)
Definition matches_topic (msg_topic : pyval) (topic_filter : option string)
  : bool :=
  if truthy_opt topic_filter
  then py_eq_opt msg_topic topic_filter
  else true.

(** One iteration of the loop of [broadcast] (lines 144-166), for the
    connection [ws]; [to_remove] is threaded through. *)
Definition broadcast_visit (net : Transport) (data_text : string)
    (message : gmap string pyval) (ws : WebSocket)
    (to_remove : list WebSocket) : M (list WebSocket) :=
  self ← get_manager;
  let filters := default ∅ (subscriptions self !! ws) in
  let user_filter := filters_get filters "userId" in
  let topic_filter := filters_get filters "topic" in
  let matches_user := matches_user message user_filter in
  msg_topic ← lift (resolve_msg_topic message);
  let matches_topic := matches_topic msg_topic topic_filter in
  if matches_user && matches_topic
  then try_except (send_text net ws data_text;; mret to_remove)
                  (λ _, mret (to_remove ++ [ws]))
  else mret to_remove.

(** [for ws in list(self.active_connections): ...] *)
Fixpoint broadcast_loop (net : Transport) (data_text : string)
    (message : gmap string pyval) (conns : list WebSocket)
    (to_remove : list WebSocket) : M (list WebSocket) :=
  match conns with
  | [] => mret to_remove
  | ws :: conns' =>
      to_remove' ← broadcast_visit net data_text message ws to_remove;
      broadcast_loop net data_text message conns' to_remove'
  end.

(** [for ws in to_remove: ...] (lines 168-170). *)
Fixpoint remove_loop (to_remove : list WebSocket) : M unit :=
  match to_remove with
  | [] => mret tt
  | ws :: rest =>
      update_manager (discard_connection ws);;
      update_manager (pop_subscription ws);;
      remove_loop rest
  end.

Section Broker.

(** [json.dumps(message, default=str)], taken here on the messages it
    serializes, as it does every envelope that comes through the route; the
    serializer that may raise is [Dumps.broadcast], further down. *)
Variable json_dumps : gmap string pyval → string.

(** [ConnectionManager.broadcast] (lines 133-170). The set is iterated in
    the order [elements] gives. *)
Definition broadcast (net : Transport) (message : gmap string pyval) : M unit :=
  let data_text := json_dumps message in
  self ← get_manager;
  to_remove ←
    broadcast_loop net data_text message (elements (active_connections self)) [];
  remove_loop to_remove.

End Broker.

(** ** Models and routes *)

Module Notification.
(** [class Notification(BaseModel)] (lines 57-67). [createdAt] is a UTC
    instant. *)
Record t : Type := {
  id : string;
  userId : option string;
  orderId : option string;
  type : string;
  title : string;
  body : option string;
  data : option (gmap string pyval);
  read : bool;
  createdAt : Z
}.

(** The constructor call of [post_notification]: [read] is not passed and
    takes its default, [False]. *)
Definition new (id : string) (userId orderId : option string)
    (type title : string) (body : option string)
    (data : option (gmap string pyval)) (createdAt : Z) : t :=
  {| id := id; userId := userId; orderId := orderId; type := type;
     title := title; body := body; data := data; read := false;
     createdAt := createdAt |}.

(** [notification.dict()]. *)
Definition dict (n : t) : gmap string pyval :=
  list_to_map
    [ ("id", PStr (id n));
      ("userId", py_of_opt (userId n));
      ("orderId", py_of_opt (orderId n));
      ("type", PStr (type n));
      ("title", PStr (title n));
      ("body", py_of_opt (body n));
      ("data", match data n with Some d => PDict d | None => PNone end);
      ("read", PBool (read n));
      ("createdAt", PDatetime (createdAt n)) ].
End Notification.

Module NotificationCreateRequest.
(** [class NotificationCreateRequest(BaseModel)] (lines 70-82), after
    validation. *)
Record t : Type := {
  userId : option string;
  topic : option string;
  orderId : option string;
  type : string;
  title : string;
  body : option string;
  data : option (gmap string pyval);
  channels : option (list string)
}.
End NotificationCreateRequest.

(** [JSONResponse(status_code=..., content=...)]. *)
Record JSONResponse : Type := {
  status_code : Z;
  content : gmap string pyval
}.

Definition HTTP_202_ACCEPTED : Z := 202.

(** Lines 211-214: the message to broadcast, the notification's fields and
    the request's topic under ["topic"] when it is truthy. *)
Definition prepare_message (notification : Notification.t)
    (topic : option string) : gmap string pyval :=
  let message := Notification.dict notification in
  if truthy_opt topic
  then <["topic" := py_of_opt topic]> message
  else message.

Section Routes.

Variable json_dumps : gmap string pyval → string.

(** [post_notification] (lines 188-221). [uuid4] is the string of the
    identifier [uuid.uuid4()] draws and [now] the instant
    [datetime.now(timezone.utc)] reads. *)
Definition post_notification (uuid4 : string) (now : Z) (net : Transport)
    (payload : NotificationCreateRequest.t) : M JSONResponse :=
  let notification :=
    Notification.new uuid4
      (NotificationCreateRequest.userId payload)
      (NotificationCreateRequest.orderId payload)
      (NotificationCreateRequest.type payload)
      (NotificationCreateRequest.title payload)
      (NotificationCreateRequest.body payload)
      (NotificationCreateRequest.data payload)
      now in
  let message :=
    prepare_message notification (NotificationCreateRequest.topic payload) in
  broadcast json_dumps net message;;
  mret {| status_code := HTTP_202_ACCEPTED;
          content := list_to_map
            [ ("status", PStr "accepted");
              ("id", PStr (Notification.id notification)) ] |}.

End Routes.

(** [websocket_endpoint] (lines 249-278) up to the receive loop: the filters
    are read from the query parameters and the stream is registered; an
    exception on the way runs the handler, which disconnects. *)
Definition websocket_endpoint_open (accept_outcome : option exn)
    (websocket : WebSocket) (query_params : gmap string string) : M unit :=
  let user_id := query_params !! "userId" in
  let topic := query_params !! "topic" in
  try_except (connect accept_outcome websocket user_id topic)
             (λ _, disconnect websocket).

(** ** Derived definitions used to state the properties *)

(** The filters the loop of [broadcast] reads for [ws]
    ([self.subscriptions.get(ws, {})]). *)
Definition filters_of (self : ConnectionManager) (ws : WebSocket)
  : gmap string (option string) :=
  default ∅ (subscriptions self !! ws).

(** The decision of lines 148-161 for one subscription dict: the value of
    [matches_user and matches_topic], or the exception raised on the way. *)
Definition matches (message : gmap string pyval)
    (filters : gmap string (option string)) : Result bool :=
  match resolve_msg_topic message with
  | Returns msg_topic =>
      Returns (matches_user message (filters_get filters "userId")
               && matches_topic msg_topic (filters_get filters "topic"))
  | Raises e => Raises e
  end.

(** The same decision once [msg_topic] is known. *)
Definition selects (self : ConnectionManager) (message : gmap string pyval)
    (msg_topic : pyval) (ws : WebSocket) : bool :=
  matches_user message (filters_get (filters_of self ws) "userId")
  && matches_topic msg_topic (filters_get (filters_of self ws) "topic").

(** The effect of the removal loop on the registry. *)
Definition remove_all (to_remove : list WebSocket) (self : ConnectionManager)
  : ConnectionManager :=
  foldl (λ self ws, pop_subscription ws (discard_connection ws self))
        self to_remove.

(** The frames handed to [send_text] between two worlds. *)
Definition frames_sent (before after : World) : list (WebSocket * string) :=
  drop (length (wire before)) (wire after).

(** The streams among [frames] whose send raised. *)
Definition failed_sends (net : Transport) (frames : list (WebSocket * string))
  : list WebSocket :=
  filter (λ ws, is_Some (net ws)) (frames.*1).

(** The registry invariant: [subscriptions] has exactly the keys of
    [active_connections]. *)
Definition registry_inv (self : ConnectionManager) : Prop :=
  dom (subscriptions self) = active_connections self.

(** The topic an envelope resolves to. *)
Definition envelope_topic (n : Notification.t) (topic : option string) : pyval :=
  if truthy_opt topic then py_of_opt topic
  else match Notification.data n with
       | Some d => py_get d "topic"
       | None => PNone
       end.

(** [Some s] with [s] empty is read as no filter. *)
Definition nonempty (o : option string) : option string :=
  match o with
  | Some s => if String.eqb s "" then None else Some s
  | None => None
  end.

(** The match predicate as the specification words it. *)
Module Spec.

Record Subscription : Type := {
  userIdFilter : option string;
  topicFilter : option string
}.

(** The top-level topic if present, else [data.topic] if present, else
    absent. *)
Definition resolvedTopic (envelope : gmap string pyval) : option pyval :=
  match envelope !! "topic" with
  | Some t => Some t
  | None =>
      match envelope !! "data" with
      | Some (PDict d) => d !! "topic"
      | _ => None
      end
  end.

Definition is_str (v : option pyval) (s : string) : bool :=
  match v with
  | Some (PStr s') => String.eqb s' s
  | _ => false
  end.

Definition matchesUser (sub : Subscription) (envelope : gmap string pyval)
  : bool :=
  match userIdFilter sub with
  | None => true
  | Some u => is_str (envelope !! "userId") u
  end.

Definition matchesTopic (sub : Subscription) (envelope : gmap string pyval)
  : bool :=
  match topicFilter sub with
  | None => true
  | Some t => is_str (resolvedTopic envelope) t
  end.

Definition matches (sub : Subscription) (envelope : gmap string pyval)
  : bool :=
  matchesUser sub envelope && matchesTopic sub envelope.

End Spec.

(** The streams [broadcast] writes to, in order, among [conns]. *)
Definition recipients (self : ConnectionManager) (message : gmap string pyval)
    (msg_topic : pyval) (conns : list WebSocket) : list WebSocket :=
  filter (λ ws, Is_true (selects self message msg_topic ws)) conns.

(** ** Example data *)

Module Examples.

(** A serializer to run the examples with: the notification id. *)
Definition dumps (message : gmap string pyval) : string :=
  match message !! "id" with
  | Some (PStr s) => s
  | _ => ""
  end.

Definition all_delivered : positive → option exn := λ _, None.

Definition start : World :=
  {| manager := ConnectionManager_init; wire := [] |}.

(** [{userId: "u1", type: "system", title: "hi"}], published as ["n-1"]. *)
Definition hello_u1 : Notification.t :=
  Notification.new "n-1" (Some "u1") None "system" "hi" None None 0.

(** [{type: "order_update", title: "x", data: {topic: "orders"}}]. *)
Definition order_x : Notification.t :=
  Notification.new "n-2" None None "order_update" "x" None
    (Some {[ "topic" := PStr "orders" ]}) 1.

(** Stream 1 connected with [?userId=&topic=], stream 2 with
    [?userId=u1&topic=orders], stream 3 with [?userId=u2]. *)
Definition three_streams : World :=
  snd ((connect None 1%positive (Some "") (Some "");;
        connect None 2%positive (Some "u1") (Some "orders");;
        connect None 3%positive (Some "u2") None) start).

End Examples.

Module PublishExamples.

(** [{"topic": "", "type": "system", "title": "hi"}]: a request that
    supplies the empty string as its topic. *)
Definition empty_topic : NotificationCreateRequest.t :=
  {| NotificationCreateRequest.userId := None;
     NotificationCreateRequest.topic := Some "";
     NotificationCreateRequest.orderId := None;
     NotificationCreateRequest.type := "system";
     NotificationCreateRequest.title := "hi";
     NotificationCreateRequest.body := None;
     NotificationCreateRequest.data := None;
     NotificationCreateRequest.channels := None |}.

End PublishExamples.

(** ** The rest of the module *)

(** The registry and the wire at process start ([manager =
    ConnectionManager()], nothing sent yet). *)
Definition World_init : World :=
  {| manager := ConnectionManager_init; wire := [] |}.

(** Where a coroutine stands: returned, or suspended in an [await]. *)
Inductive progress : Type :=
  | Done
  | Waiting.

(** [while True: await websocket.receive_text()] (lines 271-273). [inbox]
    lists what the successive awaits do, [None] for a text frame that
    arrives and [Some e] for the exception raised instead; once the list is
    used up the coroutine is suspended in the next await. *)
Fixpoint receive_loop (inbox : list (option exn)) : M progress :=
  match inbox with
  | [] => mret Waiting
  | None :: inbox' => receive_loop inbox'
  | Some e :: _ => raise e
  end.

(** [websocket_endpoint] (lines 249-278), run on its own: both handlers,
    [except WebSocketDisconnect] and [except Exception], disconnect, and the
    function returns after them. An [exn] is an instance of [Exception]; the
    cancellation of the task is not one and is not modelled. *)
Definition websocket_endpoint (accept_outcome : option exn)
    (websocket : WebSocket) (query_params : gmap string string)
    (inbox : list (option exn)) : M progress :=
  let user_id := query_params !! "userId" in
  let topic := query_params !! "topic" in
  try_except
    (connect accept_outcome websocket user_id topic;;
     receive_loop inbox)
    (λ _, disconnect websocket;; mret Done).

(** *** Request validators (lines 43-54 and 84-98) *)

Module NotificationType.
Definition ORDER_UPDATE : string := "order_update".
Definition PROMOTION : string := "promotion".
Definition SYSTEM : string := "system".
Definition REVIEW_EVENT : string := "review_event".
End NotificationType.

Module Channel.
Definition IN_APP : string := "in_app".
Definition EMAIL : string := "email".
Definition SMS : string := "sms".
Definition PUSH : string := "push".
End Channel.

(** What a validator does with a value: return one, or raise [ValueError]
    with a message. *)
Inductive Validated (A : Type) : Type :=
  | Valid (a : A)
  | ValueError (msg : string).
Arguments Valid {A} a.
Arguments ValueError {A} msg.

(** [sorted(...)] on strings: ascending by code point. *)
Fixpoint sorted_insert (x : string) (l : list string) : list string :=
  match l with
  | [] => [x]
  | y :: l' => if String.leb x y then x :: y :: l' else y :: sorted_insert x l'
  end.

Definition sorted (l : list string) : list string :=
  foldr sorted_insert [] l.

(** [str(l)] for a list of strings that hold no quote, backslash or control
    character: each between single quotes, separated by a comma and a
    space, in brackets. *)
Definition py_str_list (l : list string) : string :=
  String.append "["
    (String.append (String.concat ", " (map (λ x, String.append "'" (String.append x "'")) l))
                   "]").

(** [validate_type] (lines 84-89). *)
Definition validate_type (v : string) : Validated string :=
  let allowed :=
    [ NotificationType.ORDER_UPDATE; NotificationType.PROMOTION;
      NotificationType.SYSTEM; NotificationType.REVIEW_EVENT ] in
  if negb (bool_decide (v ∈ allowed))
  then ValueError (String.append "type must be one of " (py_str_list (sorted allowed)))
  else Valid v.

(** [validate_channel] (lines 91-98), called on one item of [channels]. *)
Definition validate_channel (v : option string) : Validated (option string) :=
  match v with
  | None => Valid v
  | Some c =>
      let allowed :=
        [ Channel.IN_APP; Channel.EMAIL; Channel.SMS; Channel.PUSH ] in
      if negb (bool_decide (c ∈ allowed))
      then ValueError (String.append "channels items must be one of "
                         (py_str_list (sorted allowed)))
      else Valid v
  end.


(** The first exception in an inbox, if any. *)
Fixpoint first_exn (inbox : list (option exn)) : option exn :=
  match inbox with
  | [] => None
  | None :: inbox' => first_exn inbox'
  | Some e :: _ => Some e
  end.

(** A registry whose two structures have the same keys and whose
    subscriptions are all dicts as [connect] builds them. *)
Definition well_formed (self : ConnectionManager) : Prop :=
  registry_inv self
  ∧ ∀ ws filters, subscriptions self !! ws = Some filters →
                  ∃ u t, filters = subscription_dict u t.

(** *** CORS origins (lines 27-34) *)

(** [s.split(",")]: the pieces of [s] between its commas, empty ones
    included; one piece when there is no comma. *)
Fixpoint split_comma (s : string) : list string :=
  match s with
  | EmptyString => [EmptyString]
  | String c s' =>
      if Ascii.eqb c ","%char
      then EmptyString :: split_comma s'
      else match split_comma s' with
           | piece :: pieces => String c piece :: pieces
           | [] => [String c EmptyString]
           end
  end.

(** The number of commas in a string. *)
Fixpoint count_commas (s : string) : nat :=
  match s with
  | EmptyString => 0
  | String c s' => (if Ascii.eqb c ","%char then 1 else 0) + count_commas s'
  end.

(** The [allow_origins] argument of the CORS middleware. [environ] is the
    value of [CORS_ALLOWED_ORIGINS] when it is set, and [strip] is
    [str.strip], left abstract. *)
Definition allow_origins (strip : string → string) (environ : option string)
  : list string :=
  let allowed_origins := default "*" environ in
  if truthy (PStr allowed_origins)
  then map strip (split_comma allowed_origins)
  else ["*"].

(** *** The serializer that may raise *)

Module Dumps.

(** [ConnectionManager.broadcast] (lines 133-170) with line 140 as it is:
    [json.dumps(message, default=str)] either returns the text or raises
    ([ValueError] on an integer too long to print, [RecursionError] on a
    value nested too deep), before the lock is taken and before any stream
    is visited. *)
Definition broadcast (json_dumps : gmap string pyval → Result string)
    (net : Transport) (message : gmap string pyval) : M unit :=
  data_text ← lift (json_dumps message);
  self ← get_manager;
  to_remove ←
    broadcast_loop net data_text message (elements (active_connections self)) [];
  remove_loop to_remove.

End Dumps.


(** *** Calls on the service *)

(** One call a client or the framework makes on the running service. *)
Inductive call : Type :=
  | CallConnect (accept_outcome : option exn) (websocket : WebSocket)
      (user_id topic : option string)
  | CallDisconnect (websocket : WebSocket)
  | CallBroadcast (net : Transport) (message : gmap string pyval)
  | CallPublish (uuid4 : string) (now : Z) (net : Transport)
      (payload : NotificationCreateRequest.t)
  | CallEndpoint (accept_outcome : option exn) (websocket : WebSocket)
      (query_params : gmap string string) (inbox : list (option exn)).

(** The world a call leaves behind. *)
Definition after_call (json_dumps : gmap string pyval → string) (c : call)
    (w : World) : World :=
  match c with
  | CallConnect a ws u t => snd (connect a ws u t w)
  | CallDisconnect ws => snd (disconnect ws w)
  | CallBroadcast net message => snd (broadcast json_dumps net message w)
  | CallPublish uuid4 now net payload =>
      snd (post_notification json_dumps uuid4 now net payload w)
  | CallEndpoint a ws qp inbox => snd (websocket_endpoint a ws qp inbox w)
  end.

(** The worlds the service can be in: the initial one, and those a call
    leads to. *)
Inductive reachable (json_dumps : gmap string pyval → string) : World → Prop :=
  | reachable_init : reachable json_dumps World_init
  | reachable_call (c : call) (w : World) :
      reachable json_dumps w → reachable json_dumps (after_call json_dumps c w).

(** *** Later calls *)

(** Whether a call is a [connect], or a run of [websocket_endpoint], for the
    stream [ws]. *)
Definition connects (ws : WebSocket) (c : call) : bool :=
  match c with
  | CallConnect _ ws' _ _ => bool_decide (ws' = ws)
  | CallEndpoint _ ws' _ _ => bool_decide (ws' = ws)
  | _ => false
  end.

(** The world a sequence of calls leaves behind, first call first. *)
Definition run_calls (json_dumps : gmap string pyval → string)
    (calls : list call) (w : World) : World :=
  foldl (λ w c, after_call json_dumps c w) w calls.

Module DumpsExamples.

(** A serializer that raises [ValueError] on a message with a key ["n"] and
    returns the notification id otherwise. *)
Definition dumps (message : gmap string pyval) : Result string :=
  match message !! "n" with
  | Some _ => Raises (OtherException "ValueError")
  | None => Returns (Examples.dumps message)
  end.


End DumpsExamples.

(** *** More example data *)

Module AnyMessageExamples.

(** [{"data": "abc"}]: a message whose [data] is a string. *)
Definition data_is_str : gmap string pyval := {[ "data" := PStr "abc" ]}.

(** A transport on which every send fails. *)
Definition all_fail : positive → option exn := λ _, Some WebSocketDisconnect.

End AnyMessageExamples.

Module MoreExamples.

(** The example registry with stream 4 connected with no query parameter. *)
Definition four_streams : World :=
  snd (connect None 4%positive None None Examples.three_streams).

(** A transport on which the sends to stream 1 fail. *)
Definition one_fails : positive → option exn :=
  λ ws, if decide (ws = 1%positive) then Some WebSocketDisconnect else None.

(** The wire form of [Examples.hello_u1], and the same under another title. *)
Definition hello : gmap string pyval :=
  prepare_message Examples.hello_u1 None.

Definition hello_retitled : gmap string pyval :=
  <["title" := PStr "bye"]> hello.

(** The example registry with stream 6 connected with [?topic=orders]. *)
Definition orders_stream : World :=
  snd (connect None 6%positive None (Some "orders") Examples.three_streams).

(** [{"topic": "", "data": {"topic": "orders"}}]. *)
Definition empty_top_topic : gmap string pyval :=
  {[ "topic" := PStr ""; "data" := PDict {[ "topic" := PStr "orders" ]} ]}.

End MoreExamples.

(** ** Running the monad *)

Ltac run :=
  repeat (unfold mbind, M_bind, bind, mret, M_ret, ret, lift, raise,
            get_manager, update_manager, try_except; simpl).

Lemma remove_loop_run (to_remove : list WebSocket) (w : World) :
  remove_loop to_remove w
  = (Returns tt, {| manager := remove_all to_remove (manager w); wire := wire w |}).
Proof.
  revert w. induction to_remove as [|ws rest IH]; intros [self frames].
  - reflexivity.
  - simpl. run. rewrite IH. reflexivity.
Qed.

Lemma remove_all_active (to_remove : list WebSocket) (self : ConnectionManager) :
  active_connections (remove_all to_remove self)
  = active_connections self ∖ list_to_set to_remove.
Proof.
  revert self. induction to_remove as [|ws rest IH]; intros self.
  - simpl. apply set_eq. intros x. rewrite elem_of_difference.
    split; [intros ?; split; [done | apply not_elem_of_empty] | by intros [? _]].
  - change (remove_all (ws :: rest) self)
      with (remove_all rest (pop_subscription ws (discard_connection ws self))).
    rewrite IH. simpl. apply set_eq. intros x.
    rewrite !elem_of_difference, elem_of_union, elem_of_singleton. tauto.
Qed.

Lemma remove_all_lookup (to_remove : list WebSocket) (self : ConnectionManager)
    (ws : WebSocket) :
  subscriptions (remove_all to_remove self) !! ws
  = if decide (ws ∈ to_remove) then None else subscriptions self !! ws.
Proof.
  revert self. induction to_remove as [|x rest IH]; intros self.
  - destruct (decide (ws ∈ [])) as [Hin|_]; [by apply not_elem_of_nil in Hin | done].
  - change (remove_all (x :: rest) self)
      with (remove_all rest (pop_subscription x (discard_connection x self))).
    rewrite IH. simpl.
    destruct (decide (ws ∈ rest)) as [Hin|Hnin];
      destruct (decide (ws ∈ x :: rest)) as [Hin'|Hnin'].
    + done.
    + exfalso. apply Hnin'. by right.
    + apply elem_of_cons in Hin' as [->|?]; [apply lookup_delete_eq | done].
    + apply lookup_delete_ne. intros ->. apply Hnin'. by left.
Qed.

Lemma remove_all_dom (to_remove : list WebSocket) (self : ConnectionManager) :
  dom (subscriptions (remove_all to_remove self))
  = dom (subscriptions self) ∖ list_to_set to_remove.
Proof.
  apply set_eq. intros ws.
  rewrite elem_of_difference, !elem_of_dom, remove_all_lookup, elem_of_list_to_set.
  destruct (decide (ws ∈ to_remove)) as [Hin|Hnin].
  - split; [intros Hs; by apply is_Some_None in Hs | tauto].
  - tauto.
Qed.

Lemma broadcast_visit_run (net : Transport) (text : string)
    (message : gmap string pyval) (tp : pyval) (ws : WebSocket)
    (acc : list WebSocket) (w : World) :
  resolve_msg_topic message = Returns tp →
  broadcast_visit net text message ws acc w
  = if selects (manager w) message tp ws
    then (Returns (match net ws with Some _ => acc ++ [ws] | None => acc end),
          {| manager := manager w; wire := wire w ++ [(ws, text)] |})
    else (Returns acc, w).
Proof.
  intros Htp. unfold broadcast_visit. run. rewrite Htp.
  unfold selects, filters_of.
  destruct (matches_user _ _ && matches_topic _ _); [|done].
  unfold send_text. by destruct (net ws).
Qed.

Lemma broadcast_visit_raises (net : Transport) (text : string)
    (message : gmap string pyval) (e : exn) (ws : WebSocket)
    (acc : list WebSocket) (w : World) :
  resolve_msg_topic message = Raises e →
  broadcast_visit net text message ws acc w = (Raises e, w).
Proof. intros He. unfold broadcast_visit. run. by rewrite He. Qed.

Lemma broadcast_loop_run (net : Transport) (text : string)
    (message : gmap string pyval) (tp : pyval) (conns acc : list WebSocket)
    (w : World) :
  resolve_msg_topic message = Returns tp →
  broadcast_loop net text message conns acc w
  = (Returns (acc ++ filter (λ ws, is_Some (net ws))
                       (recipients (manager w) message tp conns)),
     {| manager := manager w;
        wire := wire w
                ++ ((λ ws, (ws, text)) <$> recipients (manager w) message tp conns) |}).
Proof.
  intros Htp. revert acc w.
  induction conns as [|ws conns IH]; intros acc [self frames]; simpl.
  - run. by rewrite !app_nil_r.
  - run. rewrite (broadcast_visit_run _ _ _ tp) by done. simpl.
    unfold recipients. rewrite filter_cons.
    destruct (selects self message tp ws) eqn:Hsel; simpl.
    + rewrite IH. simpl. rewrite filter_cons. unfold recipients.
      destruct (net ws) as [e|] eqn:Hnet.
      * rewrite decide_True by eauto. by rewrite <- !app_assoc.
      * rewrite decide_False by apply is_Some_None. by rewrite <- !app_assoc.
    + by rewrite IH.
Qed.

Lemma broadcast_loop_raises (net : Transport) (text : string)
    (message : gmap string pyval) (e : exn) (ws : WebSocket)
    (conns acc : list WebSocket) (w : World) :
  resolve_msg_topic message = Raises e →
  broadcast_loop net text message (ws :: conns) acc w = (Raises e, w).
Proof.
  intros He. simpl. run. by rewrite (broadcast_visit_raises _ _ _ e).
Qed.

Section BrokerFacts.

Variable json_dumps : gmap string pyval → string.

(** What one [broadcast] does when [msg_topic] can be computed. *)
Lemma broadcast_run (net : Transport) (message : gmap string pyval)
    (tp : pyval) (w : World) :
  resolve_msg_topic message = Returns tp →
  let sent :=
    recipients (manager w) message tp
               (elements (active_connections (manager w))) in
  broadcast json_dumps net message w
  = (Returns tt,
     {| manager := remove_all (filter (λ ws, is_Some (net ws)) sent) (manager w);
        wire := wire w ++ ((λ ws, (ws, json_dumps message)) <$> sent) |}).
Proof.
  intros Htp sent. unfold broadcast. run.
  rewrite (broadcast_loop_run _ _ _ tp) by done.
  rewrite remove_loop_run. reflexivity.
Qed.

(** What it does when computing [msg_topic] raises: nothing, or the
    exception before any frame is sent. *)
Lemma broadcast_raises (net : Transport) (message : gmap string pyval)
    (e : exn) (w : World) :
  resolve_msg_topic message = Raises e →
  broadcast json_dumps net message w
  = (if decide (active_connections (manager w) = ∅)
     then Returns tt else Raises e, w).
Proof.
  intros He. unfold broadcast. run.
  destruct (elements (active_connections (manager w))) as [|ws conns] eqn:Hel.
  - apply elements_empty_inv in Hel. apply leibniz_equiv in Hel.
    rewrite decide_True by done. simpl. run. by destruct w.
  - rewrite (broadcast_loop_raises _ _ _ e) by done.
    rewrite decide_False; [done|].
    intros Hemp. rewrite Hemp, elements_empty in Hel. discriminate.
Qed.

End BrokerFacts.

(** ** Envelopes: the messages [post_notification] prepares *)

Lemma envelope_userId (n : Notification.t) (t : option string) :
  prepare_message n t !! "userId" = Some (py_of_opt (Notification.userId n)).
Proof. unfold prepare_message. by destruct (truthy_opt t). Qed.

Lemma envelope_data (n : Notification.t) (t : option string) :
  prepare_message n t !! "data"
  = Some (match Notification.data n with Some d => PDict d | None => PNone end).
Proof. unfold prepare_message. by destruct (truthy_opt t). Qed.

Lemma envelope_top_topic (n : Notification.t) (t : option string) :
  prepare_message n t !! "topic"
  = if truthy_opt t then Some (py_of_opt t) else None.
Proof. unfold prepare_message. by destruct (truthy_opt t). Qed.

Lemma envelope_resolves (n : Notification.t) (t : option string) :
  resolve_msg_topic (prepare_message n t) = Returns (envelope_topic n t).
Proof.
  unfold resolve_msg_topic, envelope_topic, py_get.
  rewrite envelope_top_topic, envelope_data.
  destruct (truthy_opt t) eqn:Ht; simpl.
  - unfold truthy_opt in Ht. by rewrite Ht.
  - destruct (Notification.data n) as [d|]; simpl; [|done].
    unfold py_or. simpl. destruct (bool_decide (d = ∅)) eqn:Hd; simpl; [|done].
    apply bool_decide_eq_true in Hd. subst d. done.
Qed.

Lemma subscription_dict_userId (u tf : option string) :
  filters_get (subscription_dict u tf) "userId" = u.
Proof. reflexivity. Qed.

Lemma subscription_dict_topic (u tf : option string) :
  filters_get (subscription_dict u tf) "topic" = tf.
Proof. reflexivity. Qed.

Lemma matches_user_nonempty (n : Notification.t) (t u : option string) :
  matches_user (prepare_message n t) u
  = Spec.matchesUser {| Spec.userIdFilter := nonempty u; Spec.topicFilter := None |}
      (prepare_message n t).
Proof.
  unfold matches_user, Spec.matchesUser, py_get. simpl.
  rewrite envelope_userId. simpl.
  destruct u as [s|]; simpl; [|done].
  unfold truthy_opt. simpl. destruct (String.eqb s ""); simpl; [done|].
  by destruct (Notification.userId n).
Qed.

Lemma matches_topic_nonempty (n : Notification.t) (t tf : option string) :
  matches_topic (envelope_topic n t) tf
  = Spec.matchesTopic {| Spec.userIdFilter := None; Spec.topicFilter := nonempty tf |}
      (prepare_message n t).
Proof.
  unfold matches_topic, Spec.matchesTopic, Spec.resolvedTopic. simpl.
  rewrite envelope_top_topic, envelope_data.
  destruct tf as [s|]; simpl; [|done].
  unfold truthy_opt at 1. simpl. destruct (String.eqb s ""); simpl; [done|].
  unfold envelope_topic. destruct (truthy_opt t) eqn:Ht.
  - by destruct t.
  - destruct (Notification.data n) as [d|]; simpl; [|done].
    unfold py_get. by destruct (d !! "topic") as [[]|].
Qed.

(** On an envelope the decision of the loop is the specification's predicate
    read on the filters with empty strings dropped. *)
Lemma matches_envelope (n : Notification.t) (t u tf : option string) :
  matches (prepare_message n t) (subscription_dict u tf)
  = Returns (Spec.matches
               {| Spec.userIdFilter := nonempty u; Spec.topicFilter := nonempty tf |}
               (prepare_message n t)).
Proof.
  unfold matches. rewrite envelope_resolves.
  rewrite subscription_dict_userId, subscription_dict_topic.
  by rewrite matches_user_nonempty, matches_topic_nonempty.
Qed.

Lemma matches_selects (self : ConnectionManager) (n : Notification.t)
    (t : option string) (ws : WebSocket) :
  matches (prepare_message n t) (filters_of self ws)
  = Returns (selects self (prepare_message n t) (envelope_topic n t) ws).
Proof. unfold matches. by rewrite envelope_resolves. Qed.

Section EnvelopeFacts.

Variable json_dumps : gmap string pyval → string.

Lemma broadcast_envelope (net : Transport) (n : Notification.t)
    (t : option string) (w : World) :
  let message := prepare_message n t in
  let sent :=
    recipients (manager w) message (envelope_topic n t)
               (elements (active_connections (manager w))) in
  broadcast json_dumps net message w
  = (Returns tt,
     {| manager := remove_all (filter (λ ws, is_Some (net ws)) sent) (manager w);
        wire := wire w ++ ((λ ws, (ws, json_dumps message)) <$> sent) |}).
Proof. apply broadcast_run, envelope_resolves. Qed.

Lemma frames_sent_envelope (net : Transport) (n : Notification.t)
    (t : option string) (w : World) :
  let message := prepare_message n t in
  frames_sent w (snd (broadcast json_dumps net message w))
  = (λ ws, (ws, json_dumps message))
      <$> recipients (manager w) message (envelope_topic n t)
            (elements (active_connections (manager w))).
Proof.
  intros message. subst message. unfold frames_sent.
  rewrite broadcast_envelope. simpl. apply drop_app_length.
Qed.

Lemma elem_of_frames_sent (net : Transport) (n : Notification.t)
    (t : option string) (w : World) (ws : WebSocket) (text : string) :
  let message := prepare_message n t in
  (ws, text) ∈ frames_sent w (snd (broadcast json_dumps net message w))
  ↔ text = json_dumps message
    ∧ ws ∈ active_connections (manager w)
    ∧ selects (manager w) message (envelope_topic n t) ws = true.
Proof.
  intros message. subst message. rewrite frames_sent_envelope.
  rewrite list_elem_of_fmap. unfold recipients. split.
  - intros (x & [= -> ->] & Hx). apply list_elem_of_filter in Hx as [Hsel Hin].
    apply elem_of_elements in Hin. apply Is_true_true in Hsel. done.
  - intros (-> & Hin & Hsel). exists ws. split; [done|].
    apply list_elem_of_filter. split; [by apply Is_true_true|].
    by apply elem_of_elements.
Qed.

End EnvelopeFacts.

(** ** The match predicate (C1, C2, C3) *)

(** C1, as stated, fails. A subscription whose [userIdFilter] is the empty
    string has a filter that is present and differs from the envelope's
    [userId], so the predicate as worded is false; the decision the code
    takes is true, and [broadcast] sends the envelope to stream 1, which is
    subscribed with [{userId: "", topic: ""}]. *)
Lemma match_predicate_counterexample :
  let envelope := prepare_message Examples.hello_u1 None in
  let w := Examples.three_streams in
  Spec.matches {| Spec.userIdFilter := Some ""; Spec.topicFilter := Some "" |}
    envelope = false
  ∧ matches envelope (subscription_dict (Some "") (Some "")) = Returns true
  ∧ subscriptions (manager w) !! 1%positive
    = Some (subscription_dict (Some "") (Some ""))
  ∧ (1%positive, Examples.dumps envelope)
      ∈ frames_sent w
          (snd (broadcast Examples.dumps Examples.all_delivered envelope w)).
Proof.
  repeat split. apply (bool_decide_unpack _). by vm_compute.
Qed.

Section MatchPredicate.

Variable json_dumps : gmap string pyval → string.

(** C1 (amended): for every envelope, the decision the loop takes for a
    subscription [{userId: u, topic: tf}] is
    [(u is absent or empty OR envelope.userId == u) AND (tf is absent or
    empty OR resolvedTopic == tf)], with [resolvedTopic] the top-level
    topic if present, else [data.topic] if present, else absent; and
    [broadcast] hands the serialized envelope to exactly the live streams
    whose own subscription satisfies it. *)
Theorem match_predicate (net : Transport) (n : Notification.t)
    (t : option string) :
  let envelope := prepare_message n t in
  (∀ u tf : option string,
      matches envelope (subscription_dict u tf)
      = Returns (Spec.matches {| Spec.userIdFilter := nonempty u;
                                 Spec.topicFilter := nonempty tf |} envelope))
  ∧ (∀ (w : World) (ws : WebSocket) (text : string),
        (ws, text) ∈ frames_sent w (snd (broadcast json_dumps net envelope w))
        ↔ text = json_dumps envelope
          ∧ ws ∈ active_connections (manager w)
          ∧ matches envelope (filters_of (manager w) ws) = Returns true).
Proof.
  intros envelope. subst envelope. split.
  - intros u tf. apply matches_envelope.
  - intros w ws text. rewrite elem_of_frames_sent, matches_selects.
    split; intros (? & ? & Hsel); repeat split; try done; congruence.
Qed.

Lemma selects_subscription (self : ConnectionManager) (n : Notification.t)
    (t u tf : option string) (ws : WebSocket) :
  subscriptions self !! ws = Some (subscription_dict u tf) →
  selects self (prepare_message n t) (envelope_topic n t) ws
  = Spec.matches {| Spec.userIdFilter := nonempty u;
                    Spec.topicFilter := nonempty tf |} (prepare_message n t).
Proof.
  intros Hsub. unfold selects, filters_of. rewrite Hsub. simpl.
  rewrite subscription_dict_userId, subscription_dict_topic.
  by rewrite matches_user_nonempty, matches_topic_nonempty.
Qed.

Lemma is_str_true (v : option pyval) (s : string) :
  Spec.is_str v s = true ↔ v = Some (PStr s).
Proof.
  unfold Spec.is_str. destruct v as [[]|]; try (split; [discriminate|congruence]).
  rewrite String.eqb_eq. split; congruence.
Qed.

Lemma nonempty_Some (s : string) : s ≠ "" → nonempty (Some s) = Some s.
Proof. intros Hs. simpl. by apply String.eqb_neq in Hs as ->. Qed.

(** C2 (amended): for every envelope and every live subscription whose
    [userIdFilter] is a non-empty [U], [broadcast] hands the envelope to
    the subscriber if and only if [envelope.userId == U] and the
    subscription's topic filter, when present and non-empty, equals the
    resolved topic. *)
Theorem user_filter_delivery (net : Transport) (n : Notification.t)
    (t : option string) (w : World) (ws : WebSocket) (U : string)
    (tf : option string) :
  U ≠ "" →
  ws ∈ active_connections (manager w) →
  subscriptions (manager w) !! ws = Some (subscription_dict (Some U) tf) →
  let envelope := prepare_message n t in
  (ws, json_dumps envelope)
    ∈ frames_sent w (snd (broadcast json_dumps net envelope w))
  ↔ envelope !! "userId" = Some (PStr U)
    ∧ Spec.matchesTopic {| Spec.userIdFilter := Some U;
                           Spec.topicFilter := nonempty tf |} envelope = true.
Proof.
  intros HU Hlive Hsub envelope. subst envelope.
  rewrite elem_of_frames_sent, (selects_subscription _ _ _ _ _ _ Hsub).
  rewrite nonempty_Some by done.
  unfold Spec.matches, Spec.matchesUser. simpl.
  rewrite andb_true_iff, is_str_true. unfold Spec.matchesTopic. simpl. tauto.
Qed.

(** C3 (amended): for every envelope and every live subscription whose
    [topicFilter] is a non-empty [T], [broadcast] hands the envelope to the
    subscriber if and only if the resolved topic (the top-level topic, else
    [data.topic]) equals [T] and the subscription's user filter, when
    present and non-empty, equals [envelope.userId]. *)
Theorem topic_filter_delivery (net : Transport) (n : Notification.t)
    (t : option string) (w : World) (ws : WebSocket) (T : string)
    (u : option string) :
  T ≠ "" →
  ws ∈ active_connections (manager w) →
  subscriptions (manager w) !! ws = Some (subscription_dict u (Some T)) →
  let envelope := prepare_message n t in
  (ws, json_dumps envelope)
    ∈ frames_sent w (snd (broadcast json_dumps net envelope w))
  ↔ Spec.resolvedTopic envelope = Some (PStr T)
    ∧ Spec.matchesUser {| Spec.userIdFilter := nonempty u;
                          Spec.topicFilter := Some T |} envelope = true.
Proof.
  intros HT Hlive Hsub envelope. subst envelope.
  rewrite elem_of_frames_sent, (selects_subscription _ _ _ _ _ _ Hsub).
  rewrite nonempty_Some by done.
  unfold Spec.matches, Spec.matchesTopic. simpl.
  rewrite andb_true_iff, is_str_true. unfold Spec.matchesUser. simpl. tauto.
Qed.

End MatchPredicate.

(** C2, as stated, fails in two ways. Stream 1 subscribed with
    [userIdFilter = ""] is handed an envelope whose [userId] is ["u1"];
    stream 2 subscribed with [userIdFilter = "u1"] and [topicFilter =
    "orders"] is not handed that envelope, which carries no topic. *)
Lemma user_filter_delivery_counterexample :
  let envelope := prepare_message Examples.hello_u1 None in
  let w := Examples.three_streams in
  let sent :=
    frames_sent w
      (snd (broadcast Examples.dumps Examples.all_delivered envelope w)) in
  (filters_get (filters_of (manager w) 1%positive) "userId" = Some ""
   ∧ (1%positive, Examples.dumps envelope) ∈ sent
   ∧ envelope !! "userId" ≠ Some (PStr ""))
  ∧ (filters_get (filters_of (manager w) 2%positive) "userId" = Some "u1"
     ∧ envelope !! "userId" = Some (PStr "u1")
     ∧ (2%positive, Examples.dumps envelope) ∉ sent).
Proof.
  repeat split.
  - apply (bool_decide_unpack _). by vm_compute.
  - discriminate.
  - apply (bool_decide_unpack _). by vm_compute.
Qed.

(** Stream 3 of the example registry, subscribed with [userId = "u2"]. *)
Lemma user_filter_delivery_witness :
  let envelope := prepare_message Examples.hello_u1 None in
  let w := Examples.three_streams in
  "u2" ≠ ""
  ∧ 3%positive ∈ active_connections (manager w)
  ∧ subscriptions (manager w) !! 3%positive
    = Some (subscription_dict (Some "u2") None)
  ∧ ((3%positive, Examples.dumps envelope)
       ∈ frames_sent w
           (snd (broadcast Examples.dumps Examples.all_delivered envelope w))
     ↔ envelope !! "userId" = Some (PStr "u2")
       ∧ Spec.matchesTopic {| Spec.userIdFilter := Some "u2";
                              Spec.topicFilter := nonempty None |} envelope
         = true).
Proof.
  intros envelope w.
  assert (H1 : "u2" ≠ "") by discriminate.
  assert (H2 : 3%positive ∈ active_connections (manager w))
    by (apply (bool_decide_unpack _); vm_compute; exact I).
  assert (H3 : subscriptions (manager w) !! 3%positive
               = Some (subscription_dict (Some "u2") None))
    by (vm_compute; reflexivity).
  exact (conj H1 (conj H2 (conj H3
    (user_filter_delivery Examples.dumps Examples.all_delivered
       Examples.hello_u1 None w 3%positive "u2" None H1 H2 H3)))).
Defined.

(** C3, as stated, fails in two ways. Stream 1 subscribed with
    [topicFilter = ""] is handed an envelope whose resolved topic is
    ["orders"]; stream 2 subscribed with [topicFilter = "orders"] and
    [userIdFilter = "u1"] is not handed that envelope, which names no user. *)
Lemma topic_filter_delivery_counterexample :
  let envelope := prepare_message Examples.order_x None in
  let w := Examples.three_streams in
  let sent :=
    frames_sent w
      (snd (broadcast Examples.dumps Examples.all_delivered envelope w)) in
  (filters_get (filters_of (manager w) 1%positive) "topic" = Some ""
   ∧ (1%positive, Examples.dumps envelope) ∈ sent
   ∧ Spec.resolvedTopic envelope ≠ Some (PStr ""))
  ∧ (filters_get (filters_of (manager w) 2%positive) "topic" = Some "orders"
     ∧ Spec.resolvedTopic envelope = Some (PStr "orders")
     ∧ (2%positive, Examples.dumps envelope) ∉ sent).
Proof.
  repeat split.
  - apply (bool_decide_unpack _). by vm_compute.
  - vm_compute. discriminate.
  - apply (bool_decide_unpack _). by vm_compute.
Qed.

(** Stream 2 of the example registry, subscribed with [topic = "orders"]. *)
Lemma topic_filter_delivery_witness :
  let envelope := prepare_message Examples.order_x None in
  let w := Examples.three_streams in
  "orders" ≠ ""
  ∧ 2%positive ∈ active_connections (manager w)
  ∧ subscriptions (manager w) !! 2%positive
    = Some (subscription_dict (Some "u1") (Some "orders"))
  ∧ ((2%positive, Examples.dumps envelope)
       ∈ frames_sent w
           (snd (broadcast Examples.dumps Examples.all_delivered envelope w))
     ↔ Spec.resolvedTopic envelope = Some (PStr "orders")
       ∧ Spec.matchesUser {| Spec.userIdFilter := nonempty (Some "u1");
                             Spec.topicFilter := Some "orders" |} envelope
         = true).
Proof.
  intros envelope w.
  assert (H1 : "orders" ≠ "") by discriminate.
  assert (H2 : 2%positive ∈ active_connections (manager w))
    by (apply (bool_decide_unpack _); vm_compute; exact I).
  assert (H3 : subscriptions (manager w) !! 2%positive
               = Some (subscription_dict (Some "u1") (Some "orders")))
    by (vm_compute; reflexivity).
  exact (conj H1 (conj H2 (conj H3
    (topic_filter_delivery Examples.dumps Examples.all_delivered
       Examples.order_x None w 2%positive "orders" (Some "u1") H1 H2 H3)))).
Defined.

(** ** Reaping failed streams (C4) *)

Lemma recipients_NoDup (self : ConnectionManager) (message : gmap string pyval)
    (tp : pyval) (X : gset WebSocket) :
  NoDup (recipients self message tp (elements X)).
Proof. apply NoDup_filter, NoDup_elements. Qed.

Lemma recipients_live (self : ConnectionManager) (message : gmap string pyval)
    (tp : pyval) (X : gset WebSocket) (ws : WebSocket) :
  ws ∈ recipients self message tp (elements X) → ws ∈ X.
Proof.
  unfold recipients. rewrite list_elem_of_filter, elem_of_elements. tauto.
Qed.

Lemma fst_tagged (text : string) (l : list WebSocket) :
  ((λ ws, (ws, text)) <$> l).*1 = l.
Proof.
  induction l as [|x l IH]; [done|].
  rewrite !fmap_cons. by rewrite IH.
Qed.

Lemma size_remove (X : gset WebSocket) (l : list WebSocket) :
  NoDup l → (∀ x, x ∈ l → x ∈ X) →
  size (X ∖ list_to_set l) + length l = size X.
Proof.
  intros Hnd Hsub.
  assert (Hincl : (list_to_set l : gset WebSocket) ⊆ X).
  { intros x Hx. apply Hsub. by apply elem_of_list_to_set in Hx. }
  rewrite size_difference by done.
  rewrite size_list_to_set by done.
  apply subseteq_size in Hincl. rewrite size_list_to_set in Hincl by done. lia.
Qed.

Section Reaping.

Variable json_dumps : gmap string pyval → string.

Lemma failed_sends_envelope (net : Transport) (n : Notification.t)
    (t : option string) (w : World) :
  failed_sends net
    (frames_sent w (snd (broadcast json_dumps net (prepare_message n t) w)))
  = filter (λ ws, is_Some (net ws))
      (recipients (manager w) (prepare_message n t) (envelope_topic n t)
         (elements (active_connections (manager w)))).
Proof.
  unfold failed_sends. by rewrite frames_sent_envelope, fst_tagged.
Qed.

(** C4: for every registry state and every envelope, [broadcast] completes
    and afterwards every stream whose send was attempted and raised is in
    neither [active_connections] nor [subscriptions]; every other stream
    is live exactly if it was, with the subscription it had; the live set
    has shrunk by exactly the number of failed sends, and so has
    [subscriptions] when the two had the same keys. *)
Theorem broadcast_reaps_failed (net : Transport) (n : Notification.t)
    (t : option string) (w : World) :
  let envelope := prepare_message n t in
  let w' := snd (broadcast json_dumps net envelope w) in
  let failed := failed_sends net (frames_sent w w') in
  fst (broadcast json_dumps net envelope w) = Returns tt
  ∧ (∀ ws, ws ∈ failed →
           (ws ∉ active_connections (manager w'))
           ∧ subscriptions (manager w') !! ws = None)
  ∧ (∀ ws, ws ∉ failed →
           (ws ∈ active_connections (manager w')
            ↔ ws ∈ active_connections (manager w))
           ∧ subscriptions (manager w') !! ws
             = subscriptions (manager w) !! ws)
  ∧ size (active_connections (manager w')) + length failed
    = size (active_connections (manager w))
  ∧ (registry_inv (manager w) →
     size (subscriptions (manager w')) + length failed
     = size (subscriptions (manager w))).
Proof.
  intros envelope w' failed. subst failed w' envelope.
  rewrite failed_sends_envelope. rewrite broadcast_envelope. simpl.
  set (failed := filter _ _).
  assert (Hnd : NoDup failed) by apply NoDup_filter, recipients_NoDup.
  assert (Hlive : ∀ x, x ∈ failed → x ∈ active_connections (manager w)).
  { intros x Hx. apply list_elem_of_filter in Hx as [_ Hx].
    by apply recipients_live in Hx. }
  split; [done|]. split; [|split; [|split]].
  - intros ws Hws. rewrite remove_all_active, remove_all_lookup.
    rewrite decide_True by done. split; [|done].
    rewrite elem_of_difference, elem_of_list_to_set. tauto.
  - intros ws Hws. rewrite remove_all_active, remove_all_lookup.
    rewrite decide_False by done. split; [|done].
    rewrite elem_of_difference, elem_of_list_to_set. tauto.
  - rewrite remove_all_active. by apply size_remove.
  - intros Hinv. rewrite <- !size_dom, remove_all_dom.
    apply size_remove; [done|]. rewrite Hinv. apply Hlive.
Qed.

End Reaping.

(** The example registry, with the send to stream 1 failing. *)
Lemma broadcast_reaps_failed_witness :
  let net : positive → option exn :=
    λ ws, if decide (ws = 1%positive) then Some WebSocketDisconnect else None in
  let envelope := prepare_message Examples.hello_u1 None in
  let w := Examples.three_streams in
  let w' := snd (broadcast Examples.dumps net envelope w) in
  registry_inv (manager w)
  ∧ failed_sends net (frames_sent w w') = [1%positive]
  ∧ size (subscriptions (manager w')) + 1 = size (subscriptions (manager w)).
Proof.
  intros net envelope w w'.
  assert (Hinv : registry_inv (manager w)) by (vm_compute; reflexivity).
  split; [exact Hinv|]. split; [vm_compute; reflexivity|].
  exact (proj2 (proj2 (proj2 (proj2
    (broadcast_reaps_failed Examples.dumps net Examples.hello_u1 None w))))
    Hinv).
Defined.

(** ** The registry invariant (C5) *)

Lemma connect_run (outcome : option exn) (ws : WebSocket)
    (u tf : option string) (w : World) :
  connect outcome ws u tf w
  = match outcome with
    | Some e => (Raises e, w)
    | None =>
        (Returns tt,
         {| manager :=
              set_subscription ws (subscription_dict u tf)
                (add_connection ws (manager w));
            wire := wire w |})
    end.
Proof. unfold connect, accept. by destruct outcome. Qed.

Lemma disconnect_run (ws : WebSocket) (w : World) :
  disconnect ws w
  = (Returns tt,
     {| manager := pop_subscription ws (discard_connection ws (manager w));
        wire := wire w |}).
Proof. reflexivity. Qed.

Lemma registry_inv_connect (ws : WebSocket) (filters : gmap string (option string))
    (self : ConnectionManager) :
  registry_inv self →
  registry_inv (set_subscription ws filters (add_connection ws self)).
Proof.
  unfold registry_inv. simpl. intros Hinv. by rewrite dom_insert_L, Hinv.
Qed.

Lemma registry_inv_disconnect (ws : WebSocket) (self : ConnectionManager) :
  registry_inv self →
  registry_inv (pop_subscription ws (discard_connection ws self)).
Proof.
  unfold registry_inv. simpl. intros Hinv. by rewrite dom_delete_L, Hinv.
Qed.

Lemma registry_inv_remove_all (to_remove : list WebSocket)
    (self : ConnectionManager) :
  registry_inv self → registry_inv (remove_all to_remove self).
Proof.
  unfold registry_inv. intros Hinv.
  by rewrite remove_all_dom, remove_all_active, Hinv.
Qed.

Section Invariant.

Variable json_dumps : gmap string pyval → string.

(** C5: [subscriptions] and [active_connections] have the same keys in the
    initial registry, and every [connect] (whether or not the handshake
    raises), every [disconnect] and every [broadcast] (of any message,
    whether it returns or raises) keeps it so. *)
Theorem registry_inv_preserved :
  registry_inv ConnectionManager_init
  ∧ (∀ w : World, registry_inv (manager w) →
       (∀ outcome ws u tf,
           registry_inv (manager (snd (connect outcome ws u tf w))))
       ∧ (∀ ws, registry_inv (manager (snd (disconnect ws w))))
       ∧ (∀ net message,
             registry_inv
               (manager (snd (broadcast json_dumps net message w))))).
Proof.
  split; [unfold registry_inv; simpl; apply dom_empty_L|].
  intros w Hinv. split; [|split].
  - intros outcome ws u tf. rewrite connect_run.
    destruct outcome; [done|]. by apply registry_inv_connect.
  - intros ws. rewrite disconnect_run. by apply registry_inv_disconnect.
  - intros net message.
    destruct (resolve_msg_topic message) as [tp|e] eqn:Htp.
    + rewrite (broadcast_run _ _ _ tp) by done. simpl.
      by apply registry_inv_remove_all.
    + by rewrite (broadcast_raises _ _ _ e).
Qed.

End Invariant.

(** The example registry, before and after one call of each method. *)
Lemma registry_inv_preserved_witness :
  let w := Examples.three_streams in
  registry_inv (manager w)
  ∧ registry_inv
      (manager (snd (connect None 4%positive (Some "u4") None w)))
  ∧ registry_inv (manager (snd (disconnect 2%positive w)))
  ∧ registry_inv
      (manager (snd (broadcast Examples.dumps (λ _, Some RuntimeError)
                       (prepare_message Examples.hello_u1 None) w))).
Proof.
  intros w.
  assert (Hinv : registry_inv (manager w)) by (vm_compute; reflexivity).
  pose proof (proj2 (registry_inv_preserved Examples.dumps) w Hinv)
    as (Hc & Hd & Hb).
  exact (conj Hinv (conj (Hc None 4%positive (Some "u4") None)
    (conj (Hd 2%positive)
          (Hb (λ _, Some RuntimeError)
              (prepare_message Examples.hello_u1 None))))).
Defined.

(** ** Best-effort delivery (C6) *)

Section BestEffort.

Variable json_dumps : gmap string pyval → string.

(** C6: for every registry state, envelope and transport, [broadcast]
    returns [None] and raises nothing, whichever sends fail; it attempts
    the very sends it would attempt if no send failed, so a failure does
    not cut the pass short; and no stream is sent the envelope twice. *)
Theorem broadcast_best_effort (net : Transport) (n : Notification.t)
    (t : option string) (w : World) :
  let envelope := prepare_message n t in
  fst (broadcast json_dumps net envelope w) = Returns tt
  ∧ frames_sent w (snd (broadcast json_dumps net envelope w))
    = frames_sent w (snd (broadcast json_dumps (λ _, None) envelope w))
  ∧ NoDup (frames_sent w (snd (broadcast json_dumps net envelope w))).*1.
Proof.
  intros envelope. subst envelope. split; [|split].
  - by rewrite broadcast_envelope.
  - by rewrite !frames_sent_envelope.
  - rewrite frames_sent_envelope, fst_tagged. apply recipients_NoDup.
Qed.

End BestEffort.

(** ** Disconnect and connect (C7, C8) *)

(** C7: [disconnect] never raises; a second [disconnect] of the same stream
    changes nothing, so that [disconnect] twice is [disconnect] once; and on
    a stream that is neither live nor subscribed it changes nothing. *)
Theorem disconnect_idempotent (ws : WebSocket) (w : World) :
  fst (disconnect ws w) = Returns tt
  ∧ disconnect ws (snd (disconnect ws w)) = (Returns tt, snd (disconnect ws w))
  ∧ (disconnect ws;; disconnect ws) w = disconnect ws w
  ∧ (ws ∉ active_connections (manager w) →
     subscriptions (manager w) !! ws = None →
     disconnect ws w = (Returns tt, w)).
Proof.
  assert (Htwice : ∀ self,
    pop_subscription ws (discard_connection ws
      (pop_subscription ws (discard_connection ws self)))
    = pop_subscription ws (discard_connection ws self)).
  { intros self. unfold pop_subscription, discard_connection. simpl. f_equal.
    - apply difference_twice_L.
    - apply delete_id, lookup_delete_eq. }
  split; [done|]. split; [|split].
  - rewrite !disconnect_run. simpl. by rewrite Htwice.
  - unfold mbind, M_bind, bind. rewrite !disconnect_run. simpl. by rewrite Htwice.
  - intros Hlive Hsub. rewrite disconnect_run. destruct w as [[live subs] frames].
    simpl in *. unfold pop_subscription, discard_connection. simpl.
    do 3 f_equal.
    + apply set_eq. intros x. rewrite elem_of_difference, elem_of_singleton.
      split; [tauto|]. intros Hx. split; [done|]. by intros ->.
    + by apply delete_id.
Qed.

(** Stream 9 was never connected to the example registry. *)
Lemma disconnect_idempotent_witness :
  let w := Examples.three_streams in
  (9%positive ∉ active_connections (manager w))
  ∧ subscriptions (manager w) !! 9%positive = None
  ∧ disconnect 9%positive w = (Returns tt, w).
Proof.
  intros w.
  assert (H1 : 9%positive ∉ active_connections (manager w))
    by (apply (bool_decide_unpack _); vm_compute; exact I).
  assert (H2 : subscriptions (manager w) !! 9%positive = None)
    by (vm_compute; reflexivity).
  exact (conj H1 (conj H2
    (proj2 (proj2 (proj2 (disconnect_idempotent 9%positive w))) H1 H2))).
Defined.

Lemma count_in_elements (X : gset positive) (ws : WebSocket) :
  length (filter (λ x, x = ws) (elements X))
  = if bool_decide (ws ∈ X) then 1 else 0.
Proof.
  assert (Hcount : ∀ l : list positive, NoDup l →
    length (filter (λ x, x = ws) l) = if bool_decide (ws ∈ l) then 1 else 0).
  { induction l as [|x l IH]; intros Hnd; [done|].
    apply NoDup_cons in Hnd as [Hx Hnd]. rewrite filter_cons.
    destruct (decide (x = ws)) as [->|Hne].
    - rewrite bool_decide_eq_true_2 by (by left). simpl. f_equal.
      rewrite (IH Hnd). by rewrite bool_decide_eq_false_2.
    - rewrite (IH Hnd). destruct (decide (ws ∈ l)) as [Hin|Hnin].
      + rewrite !bool_decide_eq_true_2; [done | by right | done].
      + rewrite !bool_decide_eq_false_2; [done | | done].
        intros [?|?]%elem_of_cons; congruence. }
  rewrite Hcount by apply NoDup_elements.
  destruct (decide (ws ∈ X)) as [Hin|Hnin].
  - rewrite !bool_decide_eq_true_2; [done | done | by apply elem_of_elements].
  - rewrite !bool_decide_eq_false_2; [done | done | by rewrite elem_of_elements].
Qed.

(** C8, as stated, fails. [connect] awaits the handshake before it touches
    the registry, and on a stream whose handshake has completed a second
    [accept] raises: the second [connect] then raises as well and the
    subscription is still the first one, not the second. *)
Lemma connect_twice_counterexample :
  let r1 := connect None 5%positive (Some "u1") None Examples.start in
  let r2 := connect (Some RuntimeError) 5%positive None (Some "promo") (snd r1) in
  fst r1 = Returns tt
  ∧ fst r2 = Raises RuntimeError
  ∧ subscriptions (manager (snd r2)) !! 5%positive
    = Some (<["userId" := Some "u1"]> (<["topic" := None]> ∅))
  ∧ subscriptions (manager (snd r2)) !! 5%positive
    ≠ Some (<["userId" := None]> (<["topic" := Some "promo"]> ∅)).
Proof.
  intros r1 r2. split; [reflexivity|]. split; [reflexivity|].
  split; [reflexivity|]. intros H. vm_compute in H. discriminate H.
Qed.

(** C8 (amended): [connect] awaits the handshake itself before it touches
    the registry. Whatever the registry holds, after [connect] of a stream
    with filters [f1] and then [connect] of the same stream with filters
    [f2]: when the second handshake completes, the call returns and the
    stream is in the live set exactly once with [f2] as its subscription
    (overwritten, not duplicated); when the second handshake raises, as it
    does on a stream whose handshake has completed, the second call raises
    that exception and leaves the registry as the first call left it, the
    stream registered by the first call being live exactly once with [f1].
    No other stream is touched. *)
Theorem connect_twice (a1 a2 : option exn) (ws : WebSocket)
    (u1 t1 u2 t2 : option string) (w : World) :
  let r1 := connect a1 ws u1 t1 w in
  let r2 := connect a2 ws u2 t2 (snd r1) in
  let live2 := active_connections (manager (snd r2)) in
  fst r2 = match a2 with None => Returns tt | Some e => Raises e end
  ∧ (ws ∈ live2
     ↔ a2 = None ∨ a1 = None ∨ ws ∈ active_connections (manager w))
  ∧ length (filter (λ x, x = ws) (elements live2))
    = (if bool_decide (ws ∈ live2) then 1 else 0)
  ∧ subscriptions (manager (snd r2)) !! ws
    = match a2, a1 with
      | None, _ => Some (<["userId" := u2]> (<["topic" := t2]> ∅))
      | Some _, None => Some (<["userId" := u1]> (<["topic" := t1]> ∅))
      | Some _, Some _ => subscriptions (manager w) !! ws
      end
  ∧ (is_Some a2 → snd r2 = snd r1)
  ∧ (∀ ws', ws' ≠ ws →
       (ws' ∈ live2 ↔ ws' ∈ active_connections (manager w))
       ∧ subscriptions (manager (snd r2)) !! ws'
         = subscriptions (manager w) !! ws').
Proof.
  intros r1 r2 live2. subst live2 r2 r1. rewrite !connect_run.
  split; [by destruct a2|]. split; [|split; [apply count_in_elements|]].
  - destruct a1, a2; simpl; rewrite ?elem_of_union, ?elem_of_singleton;
      split; intros; try tauto; try (by right; right);
      try (destruct H as [?|[?|?]]; done).
  - split; [|split].
    + destruct a1, a2; simpl; by rewrite ?lookup_insert_eq.
    + intros [e ->]. by destruct a1.
    + intros ws' Hne.
      destruct a1, a2; simpl; rewrite ?elem_of_union, ?elem_of_singleton,
        ?lookup_insert_ne by done; split; tauto.
Qed.

(** Stream 5 connects to the example registry and then connects again with
    other filters: the second handshake raises and nothing changes; stream 3
    is left alone. *)
Lemma connect_twice_witness :
  let w := Examples.three_streams in
  let r1 := connect None 5%positive (Some "u1") None w in
  let r2 := connect (Some RuntimeError) 5%positive None (Some "promo") (snd r1) in
  is_Some (Some RuntimeError)
  ∧ snd r2 = snd r1
  ∧ 3%positive ≠ 5%positive
  ∧ subscriptions (manager (snd r2)) !! 3%positive
    = subscriptions (manager w) !! 3%positive.
Proof.
  intros w r1 r2.
  assert (Hsome : is_Some (Some RuntimeError)) by eauto.
  assert (Hne : 3%positive ≠ 5%positive) by discriminate.
  pose proof (connect_twice None (Some RuntimeError) 5%positive
                (Some "u1") None None (Some "promo") w)
    as (_ & _ & _ & _ & Hsame & Hframe).
  exact (conj Hsome (conj (Hsame Hsome) (conj Hne (proj2 (Hframe 3%positive Hne))))).
Defined.

(** ** Publishing (C9) *)


Section Publish.

Variable json_dumps : gmap string pyval → string.



End Publish.


(** ** Empty-string filters (C10) *)

Lemma websocket_endpoint_open_run (ws : WebSocket)
    (query_params : gmap string string) (w : World) :
  websocket_endpoint_open None ws query_params w
  = (Returns tt,
     {| manager :=
          set_subscription ws
            (subscription_dict (query_params !! "userId") (query_params !! "topic"))
            (add_connection ws (manager w));
        wire := wire w |}).
Proof. reflexivity. Qed.

Section EmptyFilters.

Variable json_dumps : gmap string pyval → string.

(** C10: a user filter that is the empty string matches every message
    and a topic filter that is the empty string matches every topic, so
    that the decision for [{userId: "", topic: ""}] is the decision for
    [{userId: None, topic: None}]; a client whose connection carries
    [?userId=&topic=] is registered with these two empty filters; and a live
    stream subscribed with them is handed every envelope that is
    broadcast. *)
Theorem empty_filters_match_all (ws : WebSocket)
    (query_params : gmap string string) (w : World) :
  query_params !! "userId" = Some "" →
  query_params !! "topic" = Some "" →
  let w1 := snd (websocket_endpoint_open None ws query_params w) in
  (∀ message, matches_user message (Some "") = true)
  ∧ (∀ msg_topic, matches_topic msg_topic (Some "") = true)
  ∧ (∀ message,
        matches message (subscription_dict (Some "") (Some ""))
        = matches message (subscription_dict None None))
  ∧ ws ∈ active_connections (manager w1)
  ∧ subscriptions (manager w1) !! ws
    = Some (subscription_dict (Some "") (Some ""))
  ∧ (∀ (w2 : World) (net : Transport) (n : Notification.t) (t : option string),
        ws ∈ active_connections (manager w2) →
        subscriptions (manager w2) !! ws
        = Some (subscription_dict (Some "") (Some "")) →
        (ws, json_dumps (prepare_message n t))
          ∈ frames_sent w2
              (snd (broadcast json_dumps net (prepare_message n t) w2))).
Proof.
  intros Hu Ht w1. subst w1.
  split; [done|]. split; [done|]. split; [done|].
  rewrite websocket_endpoint_open_run, Hu, Ht. simpl.
  split; [|split].
  - apply elem_of_union_l. by apply elem_of_singleton.
  - apply lookup_insert_eq.
  - intros w2 net n t Hlive Hsub.
    apply elem_of_frames_sent. split; [done|]. split; [done|].
    unfold selects, filters_of. by rewrite Hsub.
Qed.

End EmptyFilters.

(** Stream 7 joins the example registry with [?userId=&topic=]. *)
Lemma empty_filters_match_all_witness :
  let query_params : gmap string string :=
    {[ "userId" := ""; "topic" := "" ]} in
  let w1 :=
    snd (websocket_endpoint_open None 7%positive query_params
           Examples.three_streams) in
  let envelope := prepare_message Examples.order_x (Some "orders") in
  query_params !! "userId" = Some ""
  ∧ query_params !! "topic" = Some ""
  ∧ (7%positive, Examples.dumps envelope)
      ∈ frames_sent w1
          (snd (broadcast Examples.dumps Examples.all_delivered envelope w1)).
Proof.
  intros query_params w1 envelope.
  assert (Hu : query_params !! "userId" = Some "") by reflexivity.
  assert (Ht : query_params !! "topic" = Some "") by reflexivity.
  pose proof (empty_filters_match_all Examples.dumps 7%positive query_params
                Examples.three_streams Hu Ht)
    as (_ & _ & _ & Hlive & Hsub & Hall).
  exact (conj Hu (conj Ht
    (Hall w1 Examples.all_delivered Examples.order_x (Some "orders")
          Hlive Hsub))).
Defined.

(** ** A run of the service *)

(** Stream 1 connects with [userId = "u1"] and stream 2 with no filter; a
    notification for ["u1"] is written to both (listed in the order in
    which the model walks the set). Once stream 1 has disconnected,
    publishing it again writes to stream 2 only. *)
Example publish_to_user_then_disconnect :
  let payload :=
    {| NotificationCreateRequest.userId := Some "u1";
       NotificationCreateRequest.topic := None;
       NotificationCreateRequest.orderId := None;
       NotificationCreateRequest.type := "system";
       NotificationCreateRequest.title := "hi";
       NotificationCreateRequest.body := None;
       NotificationCreateRequest.data := None;
       NotificationCreateRequest.channels := None |} in
  let publish id now :=
    post_notification Examples.dumps id now Examples.all_delivered payload in
  let w1 :=
    snd ((connect None 1%positive (Some "u1") None;;
          connect None 2%positive None None;;
          publish "a" 10%Z) Examples.start) in
  let w2 := snd ((disconnect 1%positive;; publish "b" 11%Z) w1) in
  wire w1 = [(2%positive, "a"); (1%positive, "a")]
  ∧ frames_sent w1 w2 = [(2%positive, "b")].
Proof. split; by vm_compute. Qed.

(** ** Broadcast on arbitrary messages *)


Section BroadcastAnyMessage.

Variable json_dumps : gmap string pyval → string.

Lemma frames_sent_run (net : Transport) (message : gmap string pyval)
    (tp : pyval) (w : World) :
  resolve_msg_topic message = Returns tp →
  frames_sent w (snd (broadcast json_dumps net message w))
  = (λ ws, (ws, json_dumps message))
      <$> recipients (manager w) message tp
            (elements (active_connections (manager w))).
Proof.
  intros Htp. unfold frames_sent. rewrite (broadcast_run _ _ _ tp) by done.
  simpl. apply drop_app_length.
Qed.

Lemma frames_sent_raises (net : Transport) (message : gmap string pyval)
    (e : exn) (w : World) :
  resolve_msg_topic message = Raises e →
  frames_sent w (snd (broadcast json_dumps net message w)) = [].
Proof.
  intros He. unfold frames_sent. rewrite (broadcast_raises _ _ _ e) by done.
  simpl. apply drop_all.
Qed.

End BroadcastAnyMessage.

Section BroadcastRouting.

Variable json_dumps : gmap string pyval → string.

Lemma broadcast_returns_resolves (net : Transport)
    (message : gmap string pyval) (w : World) :
  active_connections (manager w) ≠ ∅ →
  fst (broadcast json_dumps net message w) = Returns tt →
  ∃ tp, resolve_msg_topic message = Returns tp.
Proof.
  intros Hne Hret. destruct (resolve_msg_topic message) as [tp|e] eqn:Hr; [eauto|].
  rewrite (broadcast_raises _ _ _ e) in Hret by done. simpl in Hret.
  by rewrite decide_False in Hret.
Qed.

Lemma elem_of_frames_sent_run (net : Transport) (message : gmap string pyval)
    (tp : pyval) (w : World) (ws : WebSocket) (text : string) :
  resolve_msg_topic message = Returns tp →
  (ws, text) ∈ frames_sent w (snd (broadcast json_dumps net message w))
  ↔ text = json_dumps message
    ∧ ws ∈ active_connections (manager w)
    ∧ selects (manager w) message tp ws = true.
Proof.
  intros Htp. rewrite (frames_sent_run _ _ _ tp) by done.
  rewrite list_elem_of_fmap. unfold recipients. split.
  - intros (x & [= -> ->] & Hx). apply list_elem_of_filter in Hx as [Hsel Hin].
    apply elem_of_elements in Hin. apply Is_true_true in Hsel. done.
  - intros (-> & Hin & Hsel). exists ws. split; [done|].
    apply list_elem_of_filter. split; [by apply Is_true_true|].
    by apply elem_of_elements.
Qed.

(** Every frame of a [broadcast] goes to a stream that was live and carries
    the serialized message. *)
Lemma frames_sent_live (net : Transport) (message : gmap string pyval)
    (w : World) (ws : WebSocket) (text : string) :
  (ws, text) ∈ frames_sent w (snd (broadcast json_dumps net message w)) →
  text = json_dumps message ∧ ws ∈ active_connections (manager w).
Proof.
  destruct (resolve_msg_topic message) as [tp|e] eqn:Hr.
  - rewrite (elem_of_frames_sent_run _ _ tp) by done. tauto.
  - rewrite (frames_sent_raises _ _ _ e) by done. by intros ?%not_elem_of_nil.
Qed.

(** X2: a live stream that has no entry in [subscriptions], or whose entry
    holds no filter, is sent every message on which [broadcast] returns,
    whatever the message holds. *)
Theorem unfiltered_stream_receives_all (net : Transport)
    (message : gmap string pyval) (w : World) (ws : WebSocket) :
  ws ∈ active_connections (manager w) →
  subscriptions (manager w) !! ws = None
  ∨ subscriptions (manager w) !! ws = Some (subscription_dict None None) →
  fst (broadcast json_dumps net message w) = Returns tt →
  (ws, json_dumps message)
    ∈ frames_sent w (snd (broadcast json_dumps net message w)).
Proof.
  intros Hlive Hsub Hret.
  destruct (broadcast_returns_resolves net message w) as [tp Htp]; [|done|].
  { intros Hemp. rewrite Hemp in Hlive. by apply not_elem_of_empty in Hlive. }
  apply (elem_of_frames_sent_run _ _ tp); [done|].
  split; [done|]. split; [done|].
  unfold selects, filters_of. by destruct Hsub as [-> | ->].
Qed.

(** X5: [broadcast] never registers anything: afterwards the live set is
    included in the old one and [subscriptions] in the old map; and when no
    attempted send failed the registry is the old one. *)
Theorem broadcast_only_shrinks (net : Transport) (message : gmap string pyval)
    (w : World) :
  let w' := snd (broadcast json_dumps net message w) in
  active_connections (manager w') ⊆ active_connections (manager w)
  ∧ subscriptions (manager w') ⊆ subscriptions (manager w)
  ∧ (failed_sends net (frames_sent w w') = [] → manager w' = manager w).
Proof.
  intros w'. subst w'.
  destruct (resolve_msg_topic message) as [tp|e] eqn:Hr.
  - unfold failed_sends. rewrite (frames_sent_run _ _ _ tp), fst_tagged by done.
    rewrite (broadcast_run _ _ _ tp) by done. simpl. split; [|split].
    + rewrite remove_all_active. intros x. rewrite elem_of_difference. tauto.
    + apply map_subseteq_spec. intros x d. rewrite remove_all_lookup.
      by destruct (decide _).
    + by intros ->.
  - by rewrite (broadcast_raises _ _ _ e) by done.
Qed.

(** X6: [connect] and [disconnect] send nothing. [broadcast] keeps the
    frames already sent and appends its own, and two broadcasts in a row
    put the frames of the first before those of the second. *)
Theorem wire_append_only (net1 net2 : Transport) (m1 m2 : gmap string pyval)
    (w : World) :
  let w1 := snd (broadcast json_dumps net1 m1 w) in
  let w2 := snd (broadcast json_dumps net2 m2 w1) in
  (∀ a ws u t, wire (snd (connect a ws u t w)) = wire w)
  ∧ (∀ ws, wire (snd (disconnect ws w)) = wire w)
  ∧ wire w1 = wire w ++ frames_sent w w1
  ∧ wire w2 = wire w ++ frames_sent w w1 ++ frames_sent w1 w2.
Proof.
  intros w1 w2.
  assert (Happ : ∀ net m w0,
    wire (snd (broadcast json_dumps net m w0))
    = wire w0 ++ frames_sent w0 (snd (broadcast json_dumps net m w0))).
  { intros net m w0. destruct (resolve_msg_topic m) as [tp|e] eqn:Hr.
    - rewrite (frames_sent_run _ _ _ tp) by done.
      by rewrite (broadcast_run _ _ _ tp) by done.
    - rewrite (frames_sent_raises _ _ _ e) by done.
      rewrite (broadcast_raises _ _ _ e) by done. simpl. by rewrite app_nil_r. }
  split; [|split; [|split]].
  - intros a ws u t. rewrite connect_run. by destruct a.
  - intros ws. by rewrite disconnect_run.
  - apply Happ.
  - subst w2. rewrite Happ. subst w1. rewrite (Happ net1 m1 w) at 1.
    by rewrite <- app_assoc.
Qed.

End BroadcastRouting.

(** ** Broadcast with the serializer that may raise *)

Lemma Dumps_broadcast_run (json_dumps : gmap string pyval → Result string)
    (net : Transport) (message : gmap string pyval) (w : World) :
  Dumps.broadcast json_dumps net message w
  = match json_dumps message with
    | Returns text => broadcast (λ _, text) net message w
    | Raises e => (Raises e, w)
    end.
Proof.
  unfold Dumps.broadcast, broadcast, mbind, M_bind, bind, lift.
  by destruct (json_dumps message).
Qed.



(** X3: of a message that [json.dumps] serializes, [broadcast] reads three
    keys, [userId], [topic] and [data]: two such messages that agree on
    them raise or return alike, are sent to the same streams in the same
    order, and leave the same registry, whatever their other fields. *)
Theorem routing_reads_three_keys
    (json_dumps : gmap string pyval → Result string) (net : Transport)
    (m1 m2 : gmap string pyval) (text1 text2 : string) (w : World) :
  json_dumps m1 = Returns text1 →
  json_dumps m2 = Returns text2 →
  py_get m1 "userId" = py_get m2 "userId" →
  py_get m1 "topic" = py_get m2 "topic" →
  py_get m1 "data" = py_get m2 "data" →
  fst (Dumps.broadcast json_dumps net m1 w)
  = fst (Dumps.broadcast json_dumps net m2 w)
  ∧ (frames_sent w (snd (Dumps.broadcast json_dumps net m1 w))).*1
    = (frames_sent w (snd (Dumps.broadcast json_dumps net m2 w))).*1
  ∧ manager (snd (Dumps.broadcast json_dumps net m1 w))
    = manager (snd (Dumps.broadcast json_dumps net m2 w)).
Proof.
  intros H1 H2 Hu Ht Hd. rewrite !Dumps_broadcast_run, H1, H2.
  assert (Hr : resolve_msg_topic m1 = resolve_msg_topic m2)
    by (unfold resolve_msg_topic; by rewrite Ht, Hd).
  destruct (resolve_msg_topic m2) as [tp|e] eqn:Hr2.
  - assert (Hrec : ∀ conns, recipients (manager w) m1 tp conns
                            = recipients (manager w) m2 tp conns).
    { intros conns. unfold recipients, selects, matches_user. by rewrite Hu. }
    rewrite !(frames_sent_run _ _ _ tp), !(broadcast_run _ _ _ tp) by done.
    simpl. by rewrite !fst_tagged, Hrec.
  - rewrite !(frames_sent_raises _ _ _ e), !(broadcast_raises _ _ _ e) by done.
    done.
Qed.

(** Changing the title changes neither the recipients nor the registry. *)
Lemma routing_reads_three_keys_witness :
  let w := MoreExamples.four_streams in
  let m1 := MoreExamples.hello in
  let m2 := MoreExamples.hello_retitled in
  m1 ≠ m2
  ∧ DumpsExamples.dumps m1 = Returns "n-1"
  ∧ DumpsExamples.dumps m2 = Returns "n-1"
  ∧ (frames_sent w
       (snd (Dumps.broadcast DumpsExamples.dumps MoreExamples.one_fails m1 w))).*1
    = (frames_sent w
         (snd (Dumps.broadcast DumpsExamples.dumps MoreExamples.one_fails m2 w))).*1.
Proof.
  intros w m1 m2.
  assert (Hne : m1 ≠ m2).
  { intros Heq. assert (H : m1 !! "title" = m2 !! "title") by (by rewrite Heq).
    vm_compute in H. discriminate. }
  assert (H1 : DumpsExamples.dumps m1 = Returns "n-1") by reflexivity.
  assert (H2 : DumpsExamples.dumps m2 = Returns "n-1") by reflexivity.
  exact (conj Hne (conj H1 (conj H2 (proj1 (proj2
    (routing_reads_three_keys DumpsExamples.dumps MoreExamples.one_fails
       m1 m2 "n-1" "n-1" w H1 H2 eq_refl eq_refl eq_refl)))))).
Defined.

(** Stream 4, connected without filters, is sent a notification meant for
    user ["u1"]. *)
Lemma unfiltered_stream_receives_all_witness :
  let w := MoreExamples.four_streams in
  4%positive ∈ active_connections (manager w)
  ∧ subscriptions (manager w) !! 4%positive = Some (subscription_dict None None)
  ∧ (4%positive, Examples.dumps MoreExamples.hello)
      ∈ frames_sent w
          (snd (broadcast Examples.dumps Examples.all_delivered
                  MoreExamples.hello w)).
Proof.
  intros w.
  assert (H1 : 4%positive ∈ active_connections (manager w))
    by (apply (bool_decide_unpack _); vm_compute; exact I).
  assert (H2 : subscriptions (manager w) !! 4%positive
               = Some (subscription_dict None None))
    by (vm_compute; reflexivity).
  assert (H3 : fst (broadcast Examples.dumps Examples.all_delivered
                      MoreExamples.hello w) = Returns tt)
    by (vm_compute; reflexivity).
  exact (conj H1 (conj H2
    (unfiltered_stream_receives_all Examples.dumps Examples.all_delivered
       MoreExamples.hello w 4%positive H1 (or_intror H2) H3))).
Defined.

(** With every send delivered the registry is left as it was. *)
Lemma broadcast_only_shrinks_witness :
  let w := MoreExamples.four_streams in
  let w' :=
    snd (broadcast Examples.dumps Examples.all_delivered MoreExamples.hello w) in
  failed_sends Examples.all_delivered (frames_sent w w') = []
  ∧ manager w' = manager w.
Proof.
  intros w w'.
  assert (H : failed_sends Examples.all_delivered (frames_sent w w') = [])
    by (vm_compute; reflexivity).
  exact (conj H
    (proj2 (proj2 (broadcast_only_shrinks Examples.dumps Examples.all_delivered
                     MoreExamples.hello w)) H)).
Defined.

(** ** Connect and disconnect as operations on the registry *)

(** X8: calls about two different streams can be swapped: two [connect]s,
    or a [connect] and a [disconnect], leave the same world in either
    order; two [disconnect]s do so for any two streams. *)
Theorem calls_on_distinct_streams_commute (ws1 ws2 : WebSocket)
    (u1 t1 u2 t2 : option string) (w : World) :
  ((disconnect ws1;; disconnect ws2) w = (disconnect ws2;; disconnect ws1) w)
  ∧ (ws1 ≠ ws2 →
     (connect None ws1 u1 t1;; connect None ws2 u2 t2) w
     = (connect None ws2 u2 t2;; connect None ws1 u1 t1) w
     ∧ (connect None ws1 u1 t1;; disconnect ws2) w
       = (disconnect ws2;; connect None ws1 u1 t1) w).
Proof.
  unfold mbind, M_bind, bind.
  repeat (rewrite ?connect_run, ?disconnect_run; simpl).
  unfold set_subscription, add_connection, pop_subscription,
    discard_connection. simpl. split; [|intros Hne; split].
  - do 3 f_equal.
    + apply set_eq. intros x. rewrite !elem_of_difference. tauto.
    + apply delete_delete.
  - do 3 f_equal.
    + apply set_eq. intros x. rewrite !elem_of_union. tauto.
    + by apply insert_insert_ne.
  - do 3 f_equal.
    + apply set_eq. intros x.
      rewrite !elem_of_difference, !elem_of_union, elem_of_difference,
        !elem_of_singleton.
      split; [tauto|]. intros [->|[Hx Hn]]; [|tauto]. split; [by left|done].
    + by rewrite delete_insert_ne.
Qed.

Lemma calls_on_distinct_streams_commute_witness :
  let w := Examples.three_streams in
  2%positive ≠ 3%positive
  ∧ (connect None 2%positive None None;; disconnect 3%positive) w
    = (disconnect 3%positive;; connect None 2%positive None None) w.
Proof.
  intros w.
  assert (Hne : 2%positive ≠ 3%positive) by discriminate.
  exact (conj Hne (proj2 (proj2
    (calls_on_distinct_streams_commute 2%positive 3%positive
       None None None None w) Hne))).
Defined.

(** X9: a [connect] whose handshake completes adds exactly one entry to the
    live set and to [subscriptions] when the stream was not registered, and
    none when it was; a [disconnect] takes exactly one entry from each when
    the stream was registered. *)
Theorem registry_size_accounting (ws : WebSocket) (u t : option string)
    (w : World) :
  let wc := snd (connect None ws u t w) in
  let wd := snd (disconnect ws w) in
  (ws ∉ active_connections (manager w) →
   subscriptions (manager w) !! ws = None →
   size (active_connections (manager wc)) = S (size (active_connections (manager w)))
   ∧ size (subscriptions (manager wc)) = S (size (subscriptions (manager w))))
  ∧ (ws ∈ active_connections (manager w) →
     is_Some (subscriptions (manager w) !! ws) →
     size (active_connections (manager wc)) = size (active_connections (manager w))
     ∧ size (subscriptions (manager wc)) = size (subscriptions (manager w))
     ∧ S (size (active_connections (manager wd)))
       = size (active_connections (manager w))
     ∧ S (size (subscriptions (manager wd))) = size (subscriptions (manager w))).
Proof.
  intros wc wd. subst wc wd. rewrite connect_run, disconnect_run. simpl. split.
  - intros Hlive Hsub. split.
    + rewrite size_union, size_singleton; [done|].
      intros x Hx Hx'. apply elem_of_singleton in Hx as ->. done.
    + by apply map_size_insert_None.
  - intros Hlive Hsub.
    assert (Hpos : size (active_connections (manager w)) ≠ 0).
    { intros Hz. apply size_empty_inv in Hz. apply leibniz_equiv in Hz.
      rewrite Hz in Hlive. by apply not_elem_of_empty in Hlive. }
    assert (Hsing : ({[ws]} : gset positive) ⊆ active_connections (manager w)).
    { intros x Hx. by apply elem_of_singleton in Hx as ->. }
    split; [|split; [|split]].
    + f_equal. apply set_eq. intros x.
      rewrite elem_of_union, elem_of_singleton.
      split; [intros [->|?]; done | tauto].
    + by apply map_size_insert_Some.
    + rewrite size_difference, size_singleton by done. lia.
    + rewrite map_size_delete_Some by done.
      destruct Hsub as [d Hd].
      assert (size (subscriptions (manager w)) ≠ 0).
      { intros Hz. apply map_size_empty_inv in Hz. rewrite Hz in Hd.
        by rewrite lookup_empty in Hd. }
      lia.
Qed.

Lemma registry_size_accounting_witness :
  let w := Examples.three_streams in
  (9%positive ∉ active_connections (manager w))
  ∧ subscriptions (manager w) !! 9%positive = None
  ∧ size (active_connections
            (manager (snd (connect None 9%positive None None w))))
    = S (size (active_connections (manager w))).
Proof.
  intros w.
  assert (H1 : 9%positive ∉ active_connections (manager w))
    by (apply (bool_decide_unpack _); vm_compute; exact I).
  assert (H2 : subscriptions (manager w) !! 9%positive = None)
    by (vm_compute; reflexivity).
  exact (conj H1 (conj H2
    (proj1 (proj1 (registry_size_accounting 9%positive None None w) H1 H2)))).
Defined.

(** ** The endpoint's life cycle *)

Lemma receive_loop_run (inbox : list (option exn)) (w : World) :
  receive_loop inbox w
  = (match first_exn inbox with Some e => Raises e | None => Returns Waiting end,
     w).
Proof.
  induction inbox as [|[e|] inbox IH]; [done | done | exact IH].
Qed.

Lemma first_exn_Some (inbox : list (option exn)) :
  is_Some (first_exn inbox) ↔ ∃ e, Some e ∈ inbox.
Proof.
  induction inbox as [|[e|] inbox IH]; simpl.
  - split; [by intros ?%is_Some_None | by intros [e ?%not_elem_of_nil]].
  - split; [intros _; exists e; by left | eauto].
  - rewrite IH. split; intros [e He]; exists e.
    + by right.
    + by apply elem_of_cons in He as [?|?].
Qed.

Lemma websocket_endpoint_run (accept_outcome : option exn) (ws : WebSocket)
    (query_params : gmap string string) (inbox : list (option exn)) (w : World) :
  websocket_endpoint accept_outcome ws query_params inbox w
  = match accept_outcome, first_exn inbox with
    | None, None => (Returns Waiting, snd (websocket_endpoint_open None ws query_params w))
    | None, Some _ =>
        (Returns Done,
         snd (disconnect ws (snd (websocket_endpoint_open None ws query_params w))))
    | Some _, _ => (Returns Done, snd (disconnect ws w))
    end.
Proof.
  unfold websocket_endpoint, try_except, mbind, M_bind, bind.
  rewrite connect_run. destruct accept_outcome as [e|]; [done|].
  rewrite receive_loop_run. by destruct (first_exn inbox).
Qed.

(** X11: run on its own, [websocket_endpoint] never raises. It returns
    exactly when the handshake raises or some [receive_text] raises, and
    then the stream is in neither [active_connections] nor
    [subscriptions]; until then it is suspended with the stream live and
    subscribed with the [userId] and [topic] query parameters. Either way
    no other stream is touched and nothing is sent. *)
Theorem websocket_endpoint_life_cycle (accept_outcome : option exn)
    (ws : WebSocket) (query_params : gmap string string)
    (inbox : list (option exn)) (w : World) :
  let r := websocket_endpoint accept_outcome ws query_params inbox w in
  (fst r = Returns Done ∨ fst r = Returns Waiting)
  ∧ (fst r = Returns Done ↔ is_Some accept_outcome ∨ ∃ e, Some e ∈ inbox)
  ∧ (fst r = Returns Done →
     (ws ∉ active_connections (manager (snd r)))
     ∧ subscriptions (manager (snd r)) !! ws = None)
  ∧ (fst r = Returns Waiting →
     ws ∈ active_connections (manager (snd r))
     ∧ subscriptions (manager (snd r)) !! ws
       = Some (subscription_dict (query_params !! "userId")
                                 (query_params !! "topic")))
  ∧ (∀ ws', ws' ≠ ws →
       (ws' ∈ active_connections (manager (snd r))
        ↔ ws' ∈ active_connections (manager w))
       ∧ subscriptions (manager (snd r)) !! ws'
         = subscriptions (manager w) !! ws')
  ∧ wire (snd r) = wire w.
Proof.
  intros r. subst r. rewrite websocket_endpoint_run.
  pose proof (first_exn_Some inbox) as Hfirst.
  destruct accept_outcome as [e|]; [|destruct (first_exn inbox) as [e|]];
    rewrite ?websocket_endpoint_open_run, ?disconnect_run; simpl.
  - split; [by left|]. split; [split; [intros _; left; eauto | done]|].
    split; [|split; [discriminate|split; [|done]]].
    + intros _. rewrite elem_of_difference, elem_of_singleton, lookup_delete_eq.
      tauto.
    + intros ws' Hne. rewrite elem_of_difference, elem_of_singleton.
      rewrite lookup_delete_ne by done. tauto.
  - split; [by left|].
    split; [split; [intros _; right; apply Hfirst; eauto | done]|].
    split; [|split; [discriminate|split; [|done]]].
    + intros _. rewrite elem_of_difference, elem_of_singleton, lookup_delete_eq.
      tauto.
    + intros ws' Hne.
      rewrite elem_of_difference, elem_of_union, !elem_of_singleton.
      rewrite lookup_delete_ne, lookup_insert_ne by done. tauto.
  - split; [by right|]. split; [|split; [discriminate|split; [|split; [|done]]]].
    + split; [discriminate|]. intros [Ha|Hin]; [by apply is_Some_None in Ha|].
      apply Hfirst in Hin. by apply is_Some_None in Hin.
    + intros _. rewrite elem_of_union, elem_of_singleton, lookup_insert_eq. tauto.
    + intros ws' Hne. rewrite elem_of_union, elem_of_singleton.
      rewrite lookup_insert_ne by done. tauto.
Qed.

(** A client connects with [?userId=u1], sends two text frames and closes:
    the endpoint returns and stream 5 is gone. *)
Lemma websocket_endpoint_life_cycle_witness :
  let r :=
    websocket_endpoint None 5%positive {[ "userId" := "u1" ]}
      [None; None; Some WebSocketDisconnect] Examples.three_streams in
  fst r = Returns Done
  ∧ (5%positive ∉ active_connections (manager (snd r)))
  ∧ subscriptions (manager (snd r)) !! 5%positive = None.
Proof.
  intros r.
  assert (H : fst r = Returns Done) by (vm_compute; reflexivity).
  exact (conj H
    (proj1 (proj2 (proj2
      (websocket_endpoint_life_cycle None 5%positive {[ "userId" := "u1" ]}
         [None; None; Some WebSocketDisconnect] Examples.three_streams))) H)).
Defined.

(** ** Every state the service reaches *)

Lemma well_formed_connect (ws : WebSocket) (u t : option string)
    (self : ConnectionManager) :
  well_formed self →
  well_formed (set_subscription ws (subscription_dict u t) (add_connection ws self)).
Proof.
  intros [Hinv Hshape]. split; [by apply registry_inv_connect|].
  intros ws' filters. simpl. rewrite lookup_insert.
  destruct (decide (ws = ws')); [intros [= <-]; eauto | apply Hshape].
Qed.

Lemma well_formed_disconnect (ws : WebSocket) (self : ConnectionManager) :
  well_formed self →
  well_formed (pop_subscription ws (discard_connection ws self)).
Proof.
  intros [Hinv Hshape]. split; [by apply registry_inv_disconnect|].
  intros ws' filters. simpl. rewrite lookup_delete.
  destruct (decide (ws = ws')); [discriminate | apply Hshape].
Qed.

Lemma well_formed_remove_all (to_remove : list WebSocket)
    (self : ConnectionManager) :
  well_formed self → well_formed (remove_all to_remove self).
Proof.
  intros [Hinv Hshape]. split; [by apply registry_inv_remove_all|].
  intros ws filters. rewrite remove_all_lookup.
  destruct (decide _); [discriminate | apply Hshape].
Qed.

Section Reachable.

Variable json_dumps : gmap string pyval → string.

Lemma well_formed_broadcast (net : Transport) (message : gmap string pyval)
    (w : World) :
  well_formed (manager w) →
  well_formed (manager (snd (broadcast json_dumps net message w))).
Proof.
  intros Hwf. destruct (resolve_msg_topic message) as [tp|e] eqn:Hr.
  - rewrite (broadcast_run _ _ _ tp) by done. by apply well_formed_remove_all.
  - by rewrite (broadcast_raises _ _ _ e).
Qed.

Lemma post_notification_world (uuid4 : string) (now : Z) (net : Transport)
    (payload : NotificationCreateRequest.t) (w : World) :
  ∃ message,
    snd (post_notification json_dumps uuid4 now net payload w)
    = snd (broadcast json_dumps net message w).
Proof.
  exists (prepare_message
            (Notification.new uuid4
               (NotificationCreateRequest.userId payload)
               (NotificationCreateRequest.orderId payload)
               (NotificationCreateRequest.type payload)
               (NotificationCreateRequest.title payload)
               (NotificationCreateRequest.body payload)
               (NotificationCreateRequest.data payload) now)
            (NotificationCreateRequest.topic payload)).
  unfold post_notification, mbind, M_bind, bind.
  by destruct (broadcast json_dumps net _ w) as [[[]|e] w'].
Qed.

(** X10: in every world the service can reach from its start by calls of
    [connect], [disconnect], [broadcast], [post_notification] and
    [websocket_endpoint], with any arguments and any outcome of the
    handshakes and sends, [subscriptions] has exactly the keys of
    [active_connections], and every live stream has a subscription that is a
    dict [{"userId": u, "topic": t}]: the default of
    [self.subscriptions.get(ws, {})] is never used. *)
Theorem reachable_well_formed (w : World) :
  reachable json_dumps w →
  registry_inv (manager w)
  ∧ ∀ ws, ws ∈ active_connections (manager w) →
          ∃ u t, subscriptions (manager w) !! ws = Some (subscription_dict u t).
Proof.
  intros Hreach.
  assert (Hwf : well_formed (manager w)).
  { induction Hreach as [|c w Hreach IH].
    - split; [apply dom_empty_L|]. intros ws filters. simpl.
      by rewrite lookup_empty.
    - destruct c as [a ws u t|ws|net message|uuid4 now net payload|a ws qp inbox];
        cbn [after_call].
      + rewrite connect_run. destruct a; [done|]. by apply well_formed_connect.
      + rewrite disconnect_run. by apply well_formed_disconnect.
      + by apply well_formed_broadcast.
      + destruct (post_notification_world uuid4 now net payload w) as [m ->].
        by apply well_formed_broadcast.
      + rewrite websocket_endpoint_run.
        destruct a; [|destruct (first_exn inbox)];
          rewrite ?websocket_endpoint_open_run, ?disconnect_run; simpl.
        * by apply well_formed_disconnect.
        * by apply well_formed_disconnect, well_formed_connect.
        * by apply well_formed_connect. }
  destruct Hwf as [Hinv Hshape]. split; [done|].
  intros ws Hlive. rewrite <- Hinv in Hlive.
  apply elem_of_dom in Hlive as [filters Hf].
  destruct (Hshape ws filters Hf) as (u & t & ->). eauto.
Qed.

End Reachable.

(** A client connects with [?userId=u1] and stays; a message whose [data]
    is a string is then broadcast, and raises: the world so reached is
    well formed. *)
Lemma reachable_well_formed_witness :
  let w :=
    after_call Examples.dumps
      (CallBroadcast AnyMessageExamples.all_fail AnyMessageExamples.data_is_str)
      (after_call Examples.dumps
         (CallEndpoint None 5%positive {[ "userId" := "u1" ]} [None])
         World_init) in
  reachable Examples.dumps w
  ∧ registry_inv (manager w)
  ∧ ∀ ws, ws ∈ active_connections (manager w) →
          ∃ u t, subscriptions (manager w) !! ws = Some (subscription_dict u t).
Proof.
  intros w.
  assert (Hreach : reachable Examples.dumps w)
    by (apply reachable_call, reachable_call, reachable_init).
  exact (conj Hreach (reachable_well_formed Examples.dumps w Hreach)).
Defined.

(** ** After a stream is reaped, and after one has come and gone *)

Section LaterCalls.

Variable json_dumps : gmap string pyval → string.

Lemma broadcast_wire (net : Transport) (message : gmap string pyval)
    (w : World) :
  ∃ new,
    wire (snd (broadcast json_dumps net message w)) = wire w ++ new
    ∧ ∀ x text, (x, text) ∈ new → x ∈ active_connections (manager w).
Proof.
  exists (frames_sent w (snd (broadcast json_dumps net message w))). split.
  - destruct (resolve_msg_topic message) as [tp|e] eqn:Hr.
    + rewrite (frames_sent_run _ _ _ tp) by done.
      by rewrite (broadcast_run _ _ _ tp) by done.
    + rewrite (frames_sent_raises _ _ _ e) by done.
      rewrite (broadcast_raises _ _ _ e) by done. simpl. by rewrite app_nil_r.
  - intros x text Hin. by apply frames_sent_live in Hin as [_ ?].
Qed.

Lemma broadcast_live_subseteq (net : Transport) (message : gmap string pyval)
    (w : World) (x : WebSocket) :
  x ∈ active_connections (manager (snd (broadcast json_dumps net message w))) →
  x ∈ active_connections (manager w).
Proof.
  destruct (resolve_msg_topic message) as [tp|e] eqn:Hr.
  - rewrite (broadcast_run _ _ _ tp) by done. simpl.
    rewrite remove_all_active, elem_of_difference. tauto.
  - by rewrite (broadcast_raises _ _ _ e) by done.
Qed.

Lemma failed_send_reaped (net : Transport) (message : gmap string pyval)
    (w : World) (ws : WebSocket) :
  ws ∈ failed_sends net
         (frames_sent w (snd (broadcast json_dumps net message w))) →
  ws ∉ active_connections (manager (snd (broadcast json_dumps net message w))).
Proof.
  intros Hfail. unfold failed_sends in Hfail.
  destruct (resolve_msg_topic message) as [tp|e] eqn:Hr.
  - rewrite (frames_sent_run _ _ _ tp), fst_tagged in Hfail by done.
    rewrite (broadcast_run _ _ _ tp) by done. simpl.
    rewrite remove_all_active, elem_of_difference, elem_of_list_to_set. tauto.
  - rewrite (frames_sent_raises _ _ _ e) in Hfail by done.
    by apply not_elem_of_nil in Hfail.
Qed.

(** A call that does not connect [ws] keeps it out of the live set and
    sends it nothing. *)
Lemma call_keeps_out (ws : WebSocket) (c : call) (w : World) :
  connects ws c = false →
  ws ∉ active_connections (manager w) →
  (ws ∉ active_connections (manager (after_call json_dumps c w)))
  ∧ ∃ new, wire (after_call json_dumps c w) = wire w ++ new
           ∧ ∀ x text, (x, text) ∈ new → x ≠ ws.
Proof.
  intros Hc Hout.
  assert (Hquiet : ∃ new : list (positive * string),
            wire w = wire w ++ new ∧ ∀ x text, (x, text) ∈ new → x ≠ ws).
  { exists []. split; [by rewrite app_nil_r|]. by intros x text ?%not_elem_of_nil. }
  assert (Hbc : ∀ net message,
    (ws ∉ active_connections (manager (snd (broadcast json_dumps net message w))))
    ∧ ∃ new, wire (snd (broadcast json_dumps net message w)) = wire w ++ new
             ∧ ∀ x text, (x, text) ∈ new → x ≠ ws).
  { intros net message. split.
    - intros Hin. by apply broadcast_live_subseteq in Hin.
    - destruct (broadcast_wire net message w) as (new & Hw & Hlive).
      exists new. split; [done|]. intros x text Hin ->. by apply Hlive in Hin. }
  destruct c as [a ws' u t|ws'|net message|uuid4 now net payload|a ws' qp inbox];
    cbn [after_call]; simpl in Hc.
  - apply bool_decide_eq_false in Hc. rewrite connect_run.
    destruct a; simpl; [done|]. split; [|done].
    rewrite elem_of_union, elem_of_singleton. intros [->|?]; done.
  - rewrite disconnect_run. simpl. split; [|done].
    rewrite elem_of_difference. tauto.
  - apply Hbc.
  - destruct (post_notification_world json_dumps uuid4 now net payload w)
      as [message ->].
    apply Hbc.
  - apply bool_decide_eq_false in Hc. rewrite websocket_endpoint_run.
    destruct a; [|destruct (first_exn inbox)];
      rewrite ?websocket_endpoint_open_run, ?disconnect_run; simpl;
      (split; [|done]);
      rewrite ?elem_of_difference, ?elem_of_union, ?elem_of_singleton.
    + tauto.
    + intros [[->|?] _]; done.
    + intros [->|?]; done.
Qed.

Lemma calls_keep_out (ws : WebSocket) (calls : list call) (w : World) :
  Forall (λ c, connects ws c = false) calls →
  ws ∉ active_connections (manager w) →
  ∃ new, wire (run_calls json_dumps calls w) = wire w ++ new
         ∧ ∀ x text, (x, text) ∈ new → x ≠ ws.
Proof.
  intros Hcalls. revert w.
  induction Hcalls as [|c calls Hc Hcalls IH]; intros w Hout.
  - exists []. split; [by rewrite app_nil_r|]. by intros x text ?%not_elem_of_nil.
  - destruct (call_keeps_out ws c w Hc Hout) as (Hout' & new1 & Hw1 & Hn1).
    destruct (IH _ Hout') as (new2 & Hw2 & Hn2).
    exists (new1 ++ new2). split.
    + change (run_calls json_dumps (c :: calls) w)
        with (run_calls json_dumps calls (after_call json_dumps c w)).
      by rewrite Hw2, Hw1, <- app_assoc.
    + intros x text [?|?]%elem_of_app; eauto.
Qed.

(** X4: a stream removed because its send failed is written to by none of
    the calls that follow, until it is connected again: whatever sequence of
    [connect], [disconnect], [broadcast], [post_notification] and
    [websocket_endpoint] calls comes next, with any arguments and outcomes,
    as long as none of them is a [connect] or a [websocket_endpoint] of that
    stream, no frame is handed to it. *)
Theorem reaped_stream_not_written (net : Transport)
    (message : gmap string pyval) (w : World) (ws : WebSocket)
    (calls : list call) (text : string) :
  let w1 := snd (broadcast json_dumps net message w) in
  ws ∈ failed_sends net (frames_sent w w1) →
  Forall (λ c, connects ws c = false) calls →
  (ws, text) ∉ frames_sent w1 (run_calls json_dumps calls w1).
Proof.
  intros w1 Hfail Hcalls. subst w1.
  apply failed_send_reaped in Hfail.
  destruct (calls_keep_out ws calls _ Hcalls Hfail) as (new & Hw & Hnew).
  unfold frames_sent. rewrite Hw, drop_app_length.
  intros Hin. by apply Hnew in Hin.
Qed.

End LaterCalls.

(** The send to stream 1 fails in a first broadcast. Stream 8 then connects,
    the notification is published twice, once with every send failing, and
    stream 2 disconnects: nothing is written to stream 1. *)
Lemma reaped_stream_not_written_witness :
  let w := MoreExamples.four_streams in
  let w1 :=
    snd (broadcast Examples.dumps MoreExamples.one_fails MoreExamples.hello w) in
  let calls :=
    [ CallConnect None 8%positive None None;
      CallPublish "n-3" 3 Examples.all_delivered PublishExamples.empty_topic;
      CallPublish "n-4" 4 AnyMessageExamples.all_fail PublishExamples.empty_topic;
      CallDisconnect 2%positive;
      CallBroadcast Examples.all_delivered MoreExamples.hello ] in
  1%positive ∈ failed_sends MoreExamples.one_fails (frames_sent w w1)
  ∧ Forall (λ c, connects 1%positive c = false) calls
  ∧ (1%positive, "n-3") ∉ frames_sent w1 (run_calls Examples.dumps calls w1).
Proof.
  intros w w1 calls.
  assert (H1 : 1%positive ∈ failed_sends MoreExamples.one_fails (frames_sent w w1))
    by (apply (bool_decide_unpack _); vm_compute; exact I).
  assert (H2 : Forall (λ c, connects 1%positive c = false) calls)
    by (repeat constructor).
  exact (conj H1 (conj H2
    (reaped_stream_not_written Examples.dumps MoreExamples.one_fails
       MoreExamples.hello w 1%positive calls "n-3" H1 H2))).
Defined.

Lemma disconnect_unregistered (ws : WebSocket) (w : World) :
  ws ∉ active_connections (manager w) →
  subscriptions (manager w) !! ws = None →
  snd (disconnect ws w) = w.
Proof.
  intros Hlive Hsub. rewrite disconnect_run. destruct w as [[live subs] frames].
  simpl in *. unfold pop_subscription, discard_connection. simpl.
  do 2 f_equal.
  - apply set_eq. intros x. rewrite elem_of_difference, elem_of_singleton.
    split; [tauto|]. intros Hx. split; [done|]. by intros ->.
  - by apply delete_id.
Qed.

(** X7: for a stream that is not registered, [connect] followed by
    [disconnect] gives back the world exactly as it was, whether the
    handshake completes or raises; so a run of [websocket_endpoint] for
    such a stream that returns leaves the registry and the wire exactly as
    it found them. *)
Theorem connect_disconnect_round_trip (accept_outcome : option exn)
    (ws : WebSocket) (u t : option string) (w : World) :
  ws ∉ active_connections (manager w) →
  subscriptions (manager w) !! ws = None →
  snd (disconnect ws (snd (connect accept_outcome ws u t w))) = w
  ∧ (∀ query_params inbox,
       fst (websocket_endpoint accept_outcome ws query_params inbox w)
       = Returns Done →
       snd (websocket_endpoint accept_outcome ws query_params inbox w) = w).
Proof.
  intros Hlive Hsub.
  assert (Hback : ∀ filters,
    snd (disconnect ws
           {| manager := set_subscription ws filters
                           (add_connection ws (manager w));
              wire := wire w |}) = w).
  { intros filters. rewrite disconnect_run. destruct w as [[live subs] frames].
    simpl in *. unfold pop_subscription, discard_connection, set_subscription,
      add_connection. simpl. do 2 f_equal.
    - apply set_eq. intros x.
      rewrite elem_of_difference, elem_of_union, elem_of_singleton.
      split; [tauto|]. intros Hx. split; [tauto|]. by intros ->.
    - by apply delete_insert_id. }
  split.
  - rewrite connect_run. destruct accept_outcome; simpl.
    + by apply disconnect_unregistered.
    + apply Hback.
  - intros qp inbox. rewrite websocket_endpoint_run.
    destruct accept_outcome; [|destruct (first_exn inbox)].
    + intros _. by apply disconnect_unregistered.
    + intros _. rewrite websocket_endpoint_open_run. cbn [snd]. apply Hback.
    + discriminate.
Qed.

(** Stream 9 comes with [?userId=u9], sends one text frame and closes: the
    example registry is as it was. *)
Lemma connect_disconnect_round_trip_witness :
  let w := Examples.three_streams in
  let r :=
    websocket_endpoint None 9%positive {[ "userId" := "u9" ]}
      [None; Some WebSocketDisconnect] w in
  (9%positive ∉ active_connections (manager w))
  ∧ subscriptions (manager w) !! 9%positive = None
  ∧ fst r = Returns Done
  ∧ snd r = w.
Proof.
  intros w r.
  assert (H1 : 9%positive ∉ active_connections (manager w))
    by (apply (bool_decide_unpack _); vm_compute; exact I).
  assert (H2 : subscriptions (manager w) !! 9%positive = None)
    by (vm_compute; reflexivity).
  assert (H3 : fst r = Returns Done) by (vm_compute; reflexivity).
  exact (conj H1 (conj H2 (conj H3
    (proj2 (connect_disconnect_round_trip None 9%positive None None w H1 H2)
       {[ "userId" := "u9" ]} [None; Some WebSocketDisconnect] H3)))).
Defined.

(** ** Request validators *)

(** X12: [validate_type] returns its argument unchanged for exactly the
    four type names, compared as written, and for anything else raises
    [ValueError] with the names listed in alphabetical order;
    [validate_channel] does the same with the four channel names, and lets
    [None] through. *)
Theorem validators_accept_exactly (v : string) :
  (validate_type v = Valid v
   ↔ v ∈ ["order_update"; "promotion"; "system"; "review_event"])
  ∧ (validate_type v ≠ Valid v →
     validate_type v
     = ValueError
         "type must be one of ['order_update', 'promotion', 'review_event', 'system']")
  ∧ (validate_channel (Some v) = Valid (Some v)
     ↔ v ∈ ["in_app"; "email"; "sms"; "push"])
  ∧ (validate_channel (Some v) ≠ Valid (Some v) →
     validate_channel (Some v)
     = ValueError
         "channels items must be one of ['email', 'in_app', 'push', 'sms']")
  ∧ validate_channel None = Valid None.
Proof.
  unfold validate_type, validate_channel.
  set (types := [NotificationType.ORDER_UPDATE; NotificationType.PROMOTION;
                 NotificationType.SYSTEM; NotificationType.REVIEW_EVENT]).
  set (channels := [Channel.IN_APP; Channel.EMAIL; Channel.SMS; Channel.PUSH]).
  split; [|split; [|split; [|split; [|done]]]].
  - destruct (bool_decide (v ∈ types)) eqn:Hin; simpl.
    + by apply bool_decide_eq_true in Hin.
    + apply bool_decide_eq_false in Hin. by split.
  - destruct (bool_decide (v ∈ types)); simpl; [done|]. intros _. reflexivity.
  - destruct (bool_decide (v ∈ channels)) eqn:Hin; simpl.
    + by apply bool_decide_eq_true in Hin.
    + apply bool_decide_eq_false in Hin. by split.
  - destruct (bool_decide (v ∈ channels)); simpl; [done|]. intros _. reflexivity.
Qed.

(** ["System"] is not a type: the comparison is case-sensitive. *)
Lemma validators_accept_exactly_witness :
  validate_type "System" ≠ Valid "System"
  ∧ validate_type "System"
    = ValueError
        "type must be one of ['order_update', 'promotion', 'review_event', 'system']".
Proof.
  assert (H : validate_type "System" ≠ Valid "System")
    by (vm_compute; discriminate).
  exact (conj H (proj1 (proj2 (validators_accept_exactly "System")) H)).
Defined.

(** ** The shape of what is sent *)

(** X13: the message [post_notification] prepares has the nine keys of a
    notification, and the key ["topic"] besides exactly when the request's
    topic is a non-empty string, which is then its value: a top-level topic
    on the wire is never empty and never [None]. *)
Theorem prepared_message_shape (n : Notification.t) (t : option string) :
  dom (prepare_message n t)
  = list_to_set
      ["id"; "userId"; "orderId"; "type"; "title"; "body"; "data"; "read";
       "createdAt"]
    ∪ (if truthy_opt t then {["topic"]} else ∅)
  ∧ (∀ v, prepare_message n t !! "topic" = Some v
          ↔ ∃ T, t = Some T ∧ T ≠ "" ∧ v = PStr T).
Proof.
  split.
  - unfold prepare_message. destruct (truthy_opt t).
    + rewrite dom_insert_L. unfold Notification.dict.
      rewrite dom_list_to_map_L. simpl. apply set_eq. intros k.
      rewrite !elem_of_union, !elem_of_singleton. tauto.
    + unfold Notification.dict. rewrite dom_list_to_map_L. simpl.
      apply set_eq. intros k.
      rewrite !elem_of_union, !elem_of_singleton. tauto.
  - intros v. rewrite envelope_top_topic. unfold truthy_opt.
    destruct t as [T|]; simpl.
    + destruct (String.eqb T "") eqn:HT; simpl.
      * apply String.eqb_eq in HT. subst T.
        split; [discriminate | by intros (T & [= <-] & ? & _)].
      * apply String.eqb_neq in HT.
        split; [intros [= <-]; eauto | by intros (T' & [= <-] & _ & ->)].
    + split; [discriminate | by intros (T & ? & _)].
Qed.

(** ** CORS origins *)

Lemma split_comma_length (s : string) :
  length (split_comma s) = S (count_commas s).
Proof.
  induction s as [|c s IH]; [done|]. simpl.
  destruct (Ascii.eqb c ","); simpl; [by rewrite IH|].
  destruct (split_comma s); [done|]. simpl in *. done.
Qed.

Lemma split_comma_join (s : string) :
  String.concat "," (split_comma s) = s.
Proof.
  induction s as [|c s IH]; [done|]. simpl.
  destruct (Ascii.eqb c ",") eqn:Hc.
  - apply Ascii.eqb_eq in Hc. subst c. simpl.
    destruct (split_comma s) eqn:Hs; [by destruct s|].
    simpl in *. by rewrite IH.
  - destruct (split_comma s) as [|piece pieces] eqn:Hs.
    + pose proof (split_comma_length s) as Hlen. by rewrite Hs in Hlen.
    + destruct pieces as [|p ps].
      * simpl in *. by subst.
      * change (String c (String.concat "," (piece :: p :: ps)) = String c s).
        by rewrite IH.
Qed.

(** X14: the list of allowed origins is never empty. When
    [CORS_ALLOWED_ORIGINS] is unset it is the one origin got from ["*"];
    when it is set to the empty string it is [["*"]]; otherwise it has one
    entry for each piece between commas, empty pieces included, so one more
    than there are commas; and the pieces, joined by commas, are the
    variable again. *)
Theorem allow_origins_shape (strip : string → string) (environ : option string) :
  allow_origins strip environ ≠ []
  ∧ allow_origins strip None = [strip "*"]
  ∧ allow_origins strip (Some "") = ["*"]
  ∧ (∀ s, s ≠ "" →
       allow_origins strip (Some s) = map strip (split_comma s)
       ∧ length (allow_origins strip (Some s)) = S (count_commas s)
       ∧ String.concat "," (split_comma s) = s).
Proof.
  split; [|split; [done|split; [done|]]].
  - unfold allow_origins. destruct (truthy _); [|done].
    intros Hnil. apply (f_equal length) in Hnil.
    by rewrite length_map, split_comma_length in Hnil.
  - intros s Hs. unfold allow_origins. simpl.
    apply String.eqb_neq in Hs. rewrite Hs. simpl.
    by rewrite length_map, split_comma_length, split_comma_join.
Qed.

(** ["https://a.example, https://b.example,"]: two origins and, after the
    trailing comma, an empty one. *)
Lemma allow_origins_shape_witness :
  let s := "https://a.example, https://b.example," in
  s ≠ ""
  ∧ split_comma s = ["https://a.example"; " https://b.example"; ""]
  ∧ length (allow_origins (λ x, x) (Some s)) = 3.
Proof.
  intros s.
  assert (Hs : s ≠ "") by discriminate.
  split; [exact Hs|]. split; [reflexivity|].
  exact (proj1 (proj2
    (proj2 (proj2 (proj2 (allow_origins_shape (λ x, x) (Some s)))) s Hs))).
Defined.

(** ** Topic filters on arbitrary messages *)

Section TopicAnyMessage.

Variable json_dumps : gmap string pyval → string.

(** X15: on any message on which [broadcast] returns, a live stream
    subscribed with a non-empty topic [T] and no user filter is sent the
    message exactly when the top-level [topic] is the string [T], or the
    top-level [topic] is falsy (missing, [None], empty, zero) and [data] is
    a dict whose [topic] is the string [T]. A truthy top-level topic hides
    [data]; a falsy one falls back to it. *)
Theorem topic_filter_any_message (net : Transport)
    (message : gmap string pyval) (w : World) (ws : WebSocket) (T : string)
    (u : option string) :
  T ≠ "" →
  truthy_opt u = false →
  ws ∈ active_connections (manager w) →
  subscriptions (manager w) !! ws = Some (subscription_dict u (Some T)) →
  fst (broadcast json_dumps net message w) = Returns tt →
  (ws, json_dumps message)
    ∈ frames_sent w (snd (broadcast json_dumps net message w))
  ↔ py_get message "topic" = PStr T
    ∨ (truthy (py_get message "topic") = false
       ∧ ∃ d, py_get message "data" = PDict d ∧ py_get d "topic" = PStr T).
Proof.
  intros HT Hu Hlive Hsub Hret.
  assert (HTt : truthy (PStr T) = true)
    by (simpl; by apply String.eqb_neq in HT as ->).
  assert (Heq : ∀ v, py_eq_opt v (Some T) = true ↔ v = PStr T).
  { intros v. destruct v; simpl; try (split; [discriminate|congruence]).
    rewrite String.eqb_eq. split; congruence. }
  destruct (broadcast_returns_resolves json_dumps net message w) as [tp Htp];
    [|done|].
  { intros Hemp. rewrite Hemp in Hlive. by apply not_elem_of_empty in Hlive. }
  rewrite (elem_of_frames_sent_run _ _ _ tp) by done.
  unfold selects, filters_of. rewrite Hsub. simpl.
  rewrite subscription_dict_userId, subscription_dict_topic.
  unfold matches_user, matches_topic. rewrite Hu. unfold truthy_opt. simpl.
  apply String.eqb_neq in HT as HT'. rewrite HT'. simpl. rewrite Heq.
  unfold resolve_msg_topic, py_or in Htp.
  destruct (truthy (py_get message "topic")) eqn:Htop; simpl in Htp.
  - injection Htp as <-. split.
    + intros (_ & _ & ->). by left.
    + intros [->|[? _]]; [done | discriminate].
  - split.
    + intros (_ & _ & ->). right. split; [done|].
      destruct (truthy (py_get message "data")) eqn:Hd; simpl in Htp.
      * destruct (py_get message "data") as [| | | | | | |d]; try discriminate.
        injection Htp as Hg. eauto.
      * simpl in Htp. injection Htp as Hg. discriminate.
    + intros [Htop'|[_ (d & Hd & Hg)]].
      * rewrite Htop' in Htop. congruence.
      * split; [done|]. split; [done|]. rewrite Hd in Htp.
        destruct (truthy (PDict d)) eqn:Htd; simpl in Htp.
        -- injection Htp as <-. done.
        -- simpl in Htd. apply negb_false_iff, bool_decide_eq_true in Htd.
           subst d. simpl in Hg. discriminate.
Qed.

End TopicAnyMessage.

(** A message with an empty top-level topic and ["orders"] in [data] reaches
    stream 6, subscribed with [topic = "orders"]. *)
Lemma topic_filter_any_message_witness :
  let w := MoreExamples.orders_stream in
  let message := MoreExamples.empty_top_topic in
  "orders" ≠ ""
  ∧ truthy_opt None = false
  ∧ 6%positive ∈ active_connections (manager w)
  ∧ subscriptions (manager w) !! 6%positive
    = Some (subscription_dict None (Some "orders"))
  ∧ fst (broadcast Examples.dumps Examples.all_delivered message w) = Returns tt
  ∧ (6%positive, Examples.dumps message)
      ∈ frames_sent w
          (snd (broadcast Examples.dumps Examples.all_delivered message w)).
Proof.
  intros w message.
  assert (H1 : "orders" ≠ "") by discriminate.
  assert (H2 : truthy_opt None = false) by reflexivity.
  assert (H3 : 6%positive ∈ active_connections (manager w))
    by (apply (bool_decide_unpack _); vm_compute; exact I).
  assert (H4 : subscriptions (manager w) !! 6%positive
               = Some (subscription_dict None (Some "orders")))
    by (vm_compute; reflexivity).
  assert (H5 : fst (broadcast Examples.dumps Examples.all_delivered message w)
               = Returns tt)
    by (vm_compute; reflexivity).
  assert (H6 : truthy (py_get message "topic") = false
               ∧ ∃ d, py_get message "data" = PDict d
                      ∧ py_get d "topic" = PStr "orders")
    by (split; [reflexivity | eexists; split; reflexivity]).
  exact (conj H1 (conj H2 (conj H3 (conj H4 (conj H5
    (proj2 (topic_filter_any_message Examples.dumps Examples.all_delivered
              message w 6%positive "orders" None H1 H2 H3 H4 H5)
           (or_intror H6))))))).
Defined.
